(** * build_resume.py: a tag-filtered Markdown rendering of a YAML resume

    A shallow embedding of [src/build_resume.py] and the properties of its
    tag filter, its section renderers and its assembly.

    - A Python [str] is the list of its Unicode code points.
    - A value loaded from YAML is a [yaml]; a [dict] is a [gmap] from keys
      to values, a [set] of strings is a [gset].
    - A Python exception is an [Err] result; calls are sequenced in the
      order of the source, so that the first exception raised wins. The
      exceptions are those of the values: a value of the wrong type, a
      [str()] of an integer beyond the digit limit, an unknown mode, a
      file that cannot be read, opened or encoded. Running out of memory
      or of stack is not modelled. *)

From Stdlib Require Import ZArith NArith String Ascii DecimalString.
From stdpp Require Import base option list gmap sets fin_maps.

Local Open Scope N_scope.
Local Open Scope list_scope.

(** ** Strings *)

Abbreviation pystr := (list N).

(** An ASCII literal of the source as a [pystr]. *)
Fixpoint lit (s : string) : pystr :=
  match s with
  | EmptyString => []
  | String c s' => N_of_ascii c :: lit s'
  end.

Definition LF : N := 10.
Definition CR : N := 13.
Definition nl : pystr := [LF].

(** [str.isspace] on one code point: the white space of Unicode. *)
Definition is_space (c : N) : bool :=
  ((9 <=? c) && (c <=? 13)) || ((28 <=? c) && (c <=? 32))
  || (c =? 133) || (c =? 160) || (c =? 5760)
  || ((8192 <=? c) && (c <=? 8202))
  || (c =? 8232) || (c =? 8233) || (c =? 8239) || (c =? 8287)
  || (c =? 12288).

Fixpoint lstrip (s : pystr) : pystr :=
  match s with
  | [] => []
  | c :: s' => if is_space c then lstrip s' else s
  end.

Definition rstrip (s : pystr) : pystr := rev (lstrip (rev s)).

(** [s.strip()] *)
Definition strip (s : pystr) : pystr := lstrip (rstrip s).

(** [s.replace("\r\n", "\n")] *)
Fixpoint replace_crlf (s : pystr) : pystr :=
  match s with
  | [] => []
  | c :: rest =>
      match rest with
      | d :: rest' =>
          if (c =? CR) && (d =? LF) then LF :: replace_crlf rest'
          else c :: replace_crlf rest
      | [] => [c]
      end
  end.

(** [sep.join(l)] *)
Fixpoint join (sep : pystr) (l : list pystr) : pystr :=
  match l with
  | [] => []
  | [x] => x
  | x :: l' => x ++ sep ++ join sep l'
  end.

(** The truth value of a string: it is not empty. *)
Definition nonempty (s : pystr) : bool :=
  match s with [] => false | _ => true end.

(** [s.split(sep)] for a separator of one character. *)
Fixpoint split_on (sep : N) (s : pystr) : list pystr :=
  match s with
  | [] => [[]]
  | c :: s' =>
      if c =? sep then [] :: split_on sep s'
      else match split_on sep s' with
           | [] => [[c]]
           | w :: ws => (c :: w) :: ws
           end
  end.

(** ** Exceptions *)

Inductive error : Type :=
  | BadType
      (* AttributeError or TypeError: a value of a type the code does not
         expect, as in [None.get], [5.replace] or [for x in 5] *)
  | ValueError (msg : pystr)
  | SystemExit (code : Z)
  | LoadError
      (* the input file cannot be read or is not YAML *)
  | OSError
      (* the output file cannot be opened for writing *)
  | UnicodeEncodeError.
      (* the output has a character that UTF-8 cannot encode *)

Inductive result (A : Type) : Type :=
  | Ok (a : A)
  | Err (e : error).
Arguments Ok {A} a.
Arguments Err {A} e.

#[global] Instance result_ret : MRet result := fun A a => Ok a.
#[global] Instance result_bind : MBind result := fun A B f r =>
  match r with
  | Ok a => f a
  | Err e => Err e
  end.

(** [str()] of an integer of more than 4300 digits raises [ValueError]
    with this message. *)
Definition max_str_digits : nat := 4300.

Definition digit_limit_msg : pystr :=
  lit "Exceeds the limit (4300 digits) for integer string conversion; use sys.set_int_max_str_digits() to increase the limit".

(** The number of decimal digits of an integer, without its sign. *)
Definition int_digits (z : Z) : nat :=
  String.length (NilZero.string_of_uint (N.to_uint (Z.abs_N z))).

(** ** Values loaded from YAML *)

#[local] Set Warnings "-register-all".

Inductive yaml : Type :=
  | YNone
  | YBool (b : bool)
  | YInt (z : Z)
  | YStr (s : pystr)
  | YOther (shown : pystr) (truth : bool)
      (* a float, date or datetime: its [str()] and its truth value *)
  | YList (items : list yaml)
  | YDict (items : gmap pystr yaml).

(** What the program takes from Python, PyYAML and the file system and
    does not define itself: [str.lower] (the case mapping of Unicode); the
    [repr] text that [str()] gives for a list or a dict, which raises as
    [str()] of an integer does when an integer inside is beyond the digit
    limit; [yaml.safe_load], which gives no value on text that is not
    YAML; and whether a path can be opened for writing. *)
Class Builtins := {
  lower : pystr -> pystr;
  repr_container : yaml -> result pystr;
  repr_raises : forall v e,
    repr_container v = Err e -> e = ValueError digit_limit_msg;
  safe_load : pystr -> option yaml;
  writable : pystr -> bool
}.

(** A [repr] for documents in which no container is turned into text. *)
Definition stub_repr (v : yaml) : result pystr := Ok (lit "[...]").

Definition stub_repr_raises (v : yaml) (e : error)
    (H : stub_repr v = Err e) : e = ValueError digit_limit_msg :=
  match H in (_ = r)
    return (match r with Ok _ => True | Err _ => e = ValueError digit_limit_msg end)
  with eq_refl => I end.

(** [str.lower] on ASCII text. *)
Definition ascii_lower (s : pystr) : pystr :=
  map (fun c => if (65 <=? c) && (c <=? 90) then c + 32 else c) s.

(** Builtins that agree with Python on ASCII strings and scalars. *)
Definition ascii_builtins : Builtins :=
  {| lower := ascii_lower;
     repr_container := stub_repr;
     repr_raises := stub_repr_raises;
     safe_load := fun _ => None;
     writable := fun _ => true |}.

(** [bool(v)] *)
Definition truthy (v : yaml) : bool :=
  match v with
  | YNone => false
  | YBool b => b
  | YInt z => negb (Z.eqb z 0)
  | YStr s => nonempty s
  | YOther _ t => t
  | YList l => match l with [] => false | _ => true end
  | YDict m => negb (bool_decide (size m = 0%nat))
  end.

(** [str(v)] *)
Definition py_str {py : Builtins} (v : yaml) : result pystr :=
  match v with
  | YNone => Ok (lit "None")
  | YBool true => Ok (lit "True")
  | YBool false => Ok (lit "False")
  | YInt z =>
      if (max_str_digits <? int_digits z)%nat
      then Err (ValueError digit_limit_msg)
      else Ok (lit (NilZero.string_of_int (Z.to_int z)))
  | YStr s => Ok s
  | YOther shown _ => Ok shown
  | YList _ | YDict _ => repr_container v
  end.

(** [d.get(k)]: [None] when the key is absent; only a dict has [get]. *)
Definition dict_get (d : yaml) (k : pystr) : result yaml :=
  match d with
  | YDict m => Ok (default YNone (m !! k))
  | _ => Err BadType
  end.

(** [d.get(k, dflt)] *)
Definition dict_get_or (d : yaml) (k : pystr) (dflt : yaml) : result yaml :=
  match d with
  | YDict m => Ok (default dflt (m !! k))
  | _ => Err BadType
  end.

(** [for x in v]: the items a loop over [v] visits. A string gives its
    characters and a dict its keys; a scalar is not iterable. *)
Definition iter_items (v : yaml) : result (list yaml) :=
  match v with
  | YList l => Ok l
  | YStr s => Ok (map (fun c => YStr [c]) s)
  | YDict m => Ok (map (fun kv => YStr kv.1) (map_to_list m))
  | _ => Err BadType
  end.

(** [v or []] *)
Definition or_empty (v : yaml) : yaml :=
  if truthy v then v else YList [].

(** The files: the text at each path. *)
Abbreviation files := (gmap pystr pystr).

(** ** The program *)

Section Program.
Context {py : Builtins}.

(** The comprehension of [norm_tags] over a list, item by item. *)
Fixpoint tag_texts (tags : list yaml) : result (list pystr) :=
  match tags with
  | [] => Ok []
  | t :: tags' =>
      s ← py_str t;
      rest ← tag_texts tags';
      Ok (strip (lower s) :: rest)
  end.

(** [norm_tags] *)
Definition norm_tags (tags : yaml) : result (gset pystr) :=
  match tags with
  | YNone => Ok ∅
  | YStr s => Ok {[ strip (lower s) ]}
  | YList l => texts ← tag_texts l; Ok (list_to_set texts)
  | _ => s ← py_str tags; Ok {[ strip (lower s) ]}
  end.

(** [bullet_included] *)
Definition bullet_included (bullet_tags include exclude : gset pystr)
    (mode : pystr) : result bool :=
  (* Exclude always wins *)
  if bool_decide (exclude ≠ ∅) && bool_decide (bullet_tags ∩ exclude ≠ ∅)
  then Ok false
  (* If no include filter, keep everything (except excluded) *)
  else if bool_decide (include = ∅) then Ok true
  else if bool_decide (mode = lit "any")
  then Ok (bool_decide (bullet_tags ∩ include ≠ ∅))
  else if bool_decide (mode = lit "all")
  then Ok (bool_decide (include ⊆ bullet_tags))
  else Err (ValueError (lit "Unknown mode: " ++ mode)).

(** [md_escape]: only a [str] has [replace]. *)
Definition md_escape (s : yaml) : result pystr :=
  match s with
  | YStr s => Ok (strip (replace_crlf s))
  | _ => Err BadType
  end.

(** [md_escape(str(v))]: it raises when [str(v)] does. *)
Definition md_text (v : yaml) : result pystr :=
  s ← py_str v; Ok (strip (replace_crlf s)).

(** The literals of the renderers that are not ASCII. *)
Definition bullet_dot : pystr := [32; 8226; 32].   (* " • " *)
Definition em_dash : pystr := [32; 8212; 32].      (* " — " *)

Definition placeholder : pystr := lit "- (No bullets matched selected tags.)".

(** [f"- {t}"] *)
Definition bullet_line (t : pystr) : pystr := lit "- " ++ t.

(** The loop over [("location", "phone", "email")] of [render_header]. *)
Fixpoint contact_loop (data : yaml) (keys : list pystr)
    (contact_bits : list pystr) : result (list pystr) :=
  match keys with
  | [] => Ok contact_bits
  | k :: keys' =>
      v ← dict_get data k;
      if truthy v
      then t ← md_text v; contact_loop data keys' (contact_bits ++ [t])
      else contact_loop data keys' contact_bits
  end.

(** [render_header] *)
Definition render_header (data : yaml) : result pystr :=
  n ← dict_get_or data (lit "name") (YStr []);
  name ← md_escape n;
  let lines := [strip (lit "# " ++ name)] in
  let lines := lines ++ [[]; lit "----"; nl] in
  contact_bits ← contact_loop data [lit "location"; lit "phone"; lit "email"] [];
  let lines :=
    match contact_bits with
    | [] => lines
    | _ => lines ++ [lit "### " ++ join bullet_dot contact_bits]
    end in
  let lines := lines ++ [[]] in
  Ok (join nl lines).

(** [render_summary] *)
Definition render_summary (data : yaml) : result pystr :=
  summary ← dict_get data (lit "summary");
  if negb (truthy summary) then Ok []
  else s ← md_escape summary; Ok (join nl [s; nl]).

(** The loop of [render_skills]. *)
Fixpoint skills_loop (skills : list yaml) (lines : list pystr)
    : result (list pystr) :=
  match skills with
  | [] => Ok lines
  | s :: skills' =>
      h ← dict_get s (lit "header");
      header ← md_escape h;
      k ← dict_get s (lit "skill");
      skill ← md_escape k;
      h2 ← md_text (YStr header);
      k2 ← md_text (YStr skill);
      skills_loop skills' (lines ++ [lit "- **" ++ h2 ++ lit "** " ++ k2])
  end.

(** [render_skills] *)
Definition render_skills (data : yaml) : result pystr :=
  v ← dict_get data (lit "skills");
  let skills := or_empty v in
  if negb (truthy skills) then Ok []
  else
    items ← iter_items skills;
    lines ← skills_loop items [lit "## Technical Skills"; []; lit "----"; nl];
    Ok (join nl (lines ++ [[]])).

(** The loop over the bullets of a role or of a project, which
    [render_experience] and [render_projects] both have: the texts kept. *)
Fixpoint keep_bullets (bullets : list yaml) (include exclude : gset pystr)
    (mode : pystr) (kept : list pystr) : result (list pystr) :=
  match bullets with
  | [] => Ok kept
  | b :: bullets' =>
      t ← dict_get_or b (lit "text") (YStr []);
      text ← md_text t;
      g ← dict_get b (lit "tags");
      tags ← norm_tags g;
      keep ← (if nonempty text
              then bullet_included tags include exclude mode
              else Ok false);
      keep_bullets bullets' include exclude mode
        (if keep : bool then kept ++ [text] else kept)
  end.

(** What follows the loop: the bullets kept, or the placeholder line. *)
Definition kept_lines (kept : list pystr) : list pystr :=
  match kept with
  | [] => [placeholder]
  | _ => map bullet_line kept
  end.

(** One turn of the loop of [render_experience]: the lines it adds to
    [out] for one role. *)
Definition experience_entry (role : yaml) (include exclude : gset pystr)
    (mode : pystr) : result (list pystr) :=
  c ← dict_get_or role (lit "company") (YStr []);
  company ← md_text c;
  t ← dict_get_or role (lit "title") (YStr []);
  title ← md_text t;
  l ← dict_get_or role (lit "location") (YStr []);
  location ← md_text l;
  d ← dict_get_or role (lit "dates") (YStr []);
  dates ← md_text d;
  let heading_company :=
    strip (lit "**" ++ company ++ em_dash ++ title ++ lit "**") in
  let heading_location := strip (location ++ lit " (" ++ dates ++ lit ")") in
  bv ← dict_get role (lit "bullets");
  bullets ← iter_items (or_empty bv);
  kept ← keep_bullets bullets include exclude mode [];
  Ok ([heading_company; heading_location; []] ++ kept_lines kept ++ [[]]).

Fixpoint experience_loop (exp : list yaml) (include exclude : gset pystr)
    (mode : pystr) (out : list pystr) : result (list pystr) :=
  match exp with
  | [] => Ok out
  | role :: exp' =>
      lines ← experience_entry role include exclude mode;
      experience_loop exp' include exclude mode (out ++ lines)
  end.

(** [render_experience] *)
Definition render_experience (data : yaml) (include exclude : gset pystr)
    (mode : pystr) : result pystr :=
  v ← dict_get data (lit "experience");
  let exp := or_empty v in
  if negb (truthy exp) then Ok []
  else
    roles ← iter_items exp;
    out ← experience_loop roles include exclude mode
            [lit "## Professional Experience"; []; lit "----"; nl];
    Ok (join nl out).

(** One turn of the loop of [render_projects]. *)
Definition project_entry (p : yaml) (include exclude : gset pystr)
    (mode : pystr) : result (list pystr) :=
  n ← dict_get_or p (lit "name") (YStr []);
  name ← md_text n;
  d ← dict_get_or p (lit "dates") (YStr []);
  dates ← md_text d;
  bv ← dict_get p (lit "bullets");
  bullets ← iter_items (or_empty bv);
  kept ← keep_bullets bullets include exclude mode [];
  Ok ([strip (lit "**" ++ name ++ lit "** (" ++ dates ++ lit ")"); []]
      ++ kept_lines kept ++ [[]]).

Fixpoint projects_loop (projects : list yaml) (include exclude : gset pystr)
    (mode : pystr) (out : list pystr) : result (list pystr) :=
  match projects with
  | [] => Ok out
  | p :: projects' =>
      lines ← project_entry p include exclude mode;
      projects_loop projects' include exclude mode (out ++ lines)
  end.

(** [render_projects] *)
Definition render_projects (data : yaml) (include exclude : gset pystr)
    (mode : pystr) : result pystr :=
  v ← dict_get data (lit "projects");
  let projects := or_empty v in
  if negb (truthy projects) then Ok []
  else
    ps ← iter_items projects;
    out ← projects_loop ps include exclude mode
            [lit "## Projects"; []; lit "----"; nl];
    Ok (join nl out).

(** The loop of [render_education]. *)
Fixpoint education_loop (edu : list yaml) (out : list pystr)
    : result (list pystr) :=
  match edu with
  | [] => Ok out
  | e :: edu' =>
      s ← dict_get_or e (lit "school") (YStr []);
      school ← md_text s;
      d ← dict_get_or e (lit "detail") (YStr []);
      detail ← md_text d;
      y ← dict_get_or e (lit "year") (YStr []);
      year ← md_text y;
      let bits := List.filter nonempty [school; detail; year] in
      education_loop edu' (out ++ [lit "- " ++ join (lit ", ") bits])
  end.

(** [render_education] *)
Definition render_education (data : yaml) : result pystr :=
  v ← dict_get data (lit "education");
  let edu := or_empty v in
  if negb (truthy edu) then Ok []
  else
    es ← iter_items edu;
    out ← education_loop es [lit "## Education"; []; lit "----"; nl];
    Ok (join nl (out ++ [[]])).

(** The last line of [build_md], on the six rendered sections. *)
Definition assemble (parts : list pystr) : pystr :=
  strip (join nl (List.filter nonempty parts)) ++ nl.

(** [build_md] *)
Definition build_md (data : yaml) (include exclude : gset pystr)
    (mode : pystr) : result pystr :=
  p1 ← render_header data;
  p2 ← render_summary data;
  p3 ← render_skills data;
  p4 ← render_experience data include exclude mode;
  p5 ← render_projects data include exclude mode;
  p6 ← render_education data;
  Ok (assemble [p1; p2; p3; p4; p5; p6]).

(** ** The command line *)

(** The options as given on the command line, each one absent or with
    its value. *)
Record cli : Type := {
  opt_in : option pystr;
  opt_out : option pystr;
  opt_include : option pystr;
  opt_exclude : option pystr;
  opt_mode : option pystr
}.

(** The namespace [ap.parse_args()] returns. *)
Record args : Type := {
  arg_inp : pystr;
  arg_out : pystr;
  arg_include : pystr;
  arg_exclude : pystr;
  arg_mode : pystr
}.

(** What [argparse] does with the five arguments [main] declares:
    [--in] and [--out] are required, [--mode] has
    [choices=["any", "all"]], and the rest have defaults. A usage error
    leaves the program with status 2. *)
Definition parse_args (c : cli) : result args :=
  match opt_mode c with
  | Some m =>
      if bool_decide (m = lit "any") || bool_decide (m = lit "all")
      then
        match opt_in c, opt_out c with
        | Some i, Some o =>
            Ok {| arg_inp := i; arg_out := o;
                  arg_include := default [] (opt_include c);
                  arg_exclude := default [] (opt_exclude c);
                  arg_mode := m |}
        | _, _ => Err (SystemExit 2)
        end
      else Err (SystemExit 2)
  | None =>
      match opt_in c, opt_out c with
      | Some i, Some o =>
          Ok {| arg_inp := i; arg_out := o;
                arg_include := default [] (opt_include c);
                arg_exclude := default [] (opt_exclude c);
                arg_mode := lit "any" |}
      | _, _ => Err (SystemExit 2)
      end
  end.

(** [{t.strip().lower() for t in s.split(",") if t.strip()}] *)
Definition tag_set (s : pystr) : gset pystr :=
  list_to_set
    (map (fun t => lower (strip t))
       (List.filter (fun t => nonempty (strip t)) (split_on 44 s))).

(** [load_yaml] *)
Definition load_yaml (fs : files) (path : pystr) : result yaml :=
  match fs !! path with
  | None => Err LoadError
  | Some text =>
      match safe_load text with
      | Some data => Ok data
      | None => Err LoadError
      end
  end.

(** A surrogate: a code point that UTF-8 does not encode. *)
Definition is_surrogate (c : N) : bool := (55296 <=? c) && (c <=? 57343).

(** [Path(path).write_text(md, encoding="utf-8")]: the file is opened,
    which empties it, then the text is encoded and written. *)
Definition write_text (fs : files) (path md : pystr) : result unit * files :=
  if negb (writable path) then (Err OSError, fs)
  else if existsb is_surrogate md
       then (Err UnicodeEncodeError, <[path := []]> fs)
       else (Ok tt, <[path := md]> fs).

(** [main]: its outcome and the files it leaves. *)
Definition main (c : cli) (fs : files) : result unit * files :=
  match parse_args c with
  | Err e => (Err e, fs)
  | Ok a =>
      let include := tag_set (arg_include a) in
      let exclude := tag_set (arg_exclude a) in
      match load_yaml fs (arg_inp a) with
      | Err e => (Err e, fs)
      | Ok data =>
          match build_md data include exclude (arg_mode a) with
          | Err e => (Err e, fs)
          | Ok md => write_text fs (arg_out a) md
          end
      end
  end.

End Program.

(** ** The bullets of a document and of its rendering *)

(** The value at a key of a document, [None] when there is none. *)
Definition field (d : yaml) (k : pystr) : yaml :=
  match d with
  | YDict m => default YNone (m !! k)
  | _ => YNone
  end.

(** The items of a sequence. *)
Definition items_of (v : yaml) : list yaml :=
  match v with
  | YList l => l
  | _ => []
  end.

(** [items] occur in [s] one after the other, without overlap. *)
Fixpoint occurs_in_order (items : list pystr) (s : pystr) : Prop :=
  match items with
  | [] => True
  | x :: items' => exists p q, s = p ++ x ++ q /\ occurs_in_order items' q
  end.




(** All white space. *)
Definition blank (w : pystr) : Prop := Forall (fun c => is_space c = true) w.

(** No white space at either end, and not empty. *)
Definition clean (x : pystr) : Prop :=
  (exists c t, x = c :: t /\ is_space c = false)
  /\ (forall t d, x = t ++ [d] -> is_space d = false).

(** What [build_md] can raise: a type error, the [ValueError] of [str()]
    on an integer beyond the digit limit, or the [ValueError] of an
    unknown mode, which needs an include filter. *)
Definition expected_error (include : gset pystr) (mode : pystr)
    (err : error) : Prop :=
  err = BadType
  \/ err = ValueError digit_limit_msg
  \/ (err = ValueError (lit "Unknown mode: " ++ mode)
      /\ mode ≠ lit "any" /\ mode ≠ lit "all" /\ include ≠ ∅).

(** What a renderer without filter can raise. *)
Definition type_or_digits (err : error) : Prop :=
  err = BadType \/ err = ValueError digit_limit_msg.

(** The keys of a document that the renderers read. *)
Definition known_keys : list pystr :=
  [lit "name"; lit "location"; lit "phone"; lit "email"; lit "summary";
   lit "skills"; lit "experience"; lit "projects"; lit "education"].

(** ** Documents of the expected shape *)

Definition is_dict (v : yaml) : bool :=
  match v with YDict _ => true | _ => false end.

Definition is_str (v : yaml) : bool :=
  match v with YStr _ => true | _ => false end.

(** Missing or empty, or else a sequence whose items are all [ok]. *)
Definition seq_of (ok : yaml -> bool) (v : yaml) : bool :=
  negb (truthy v) || match v with YList l => forallb ok l | _ => false end.

(** [d.get(k, dflt)] on a value known to be a mapping. *)
Definition field_or (d : yaml) (k : pystr) (dflt : yaml) : yaml :=
  match d with
  | YDict m => default dflt (m !! k)
  | _ => dflt
  end.

Section Bullets.
Context {py : Builtins}.

(** The normalised text of a value, empty where [str()] raises. *)
Definition text_of (v : yaml) : pystr :=
  match md_text v with
  | Ok t => t
  | Err _ => []
  end.

(** The text of a bullet as the renderers normalise it. *)
Definition bullet_text (b : yaml) : pystr :=
  text_of (field_or b (lit "text") (YStr [])).

(** The tags of a bullet, none where [norm_tags] raises. *)
Definition tags_of (b : yaml) : gset pystr :=
  match norm_tags (field b (lit "tags")) with
  | Ok tags => tags
  | Err _ => ∅
  end.

(** The lines that head a role and a project. *)
Definition role_heading (role : yaml) : list pystr :=
  [strip (lit "**" ++ text_of (field_or role (lit "company") (YStr []))
          ++ em_dash ++ text_of (field_or role (lit "title") (YStr []))
          ++ lit "**");
   strip (text_of (field_or role (lit "location") (YStr [])) ++ lit " ("
          ++ text_of (field_or role (lit "dates") (YStr [])) ++ lit ")");
   []].

Definition project_heading (p : yaml) : list pystr :=
  [strip (lit "**" ++ text_of (field_or p (lit "name") (YStr []))
          ++ lit "** (" ++ text_of (field_or p (lit "dates") (YStr []))
          ++ lit ")");
   []].

(** The normalised texts of all bullets of a role or project. *)
Definition entry_bullets (entry : yaml) : list pystr :=
  map bullet_text (items_of (field entry (lit "bullets"))).



(** A bullet that the tag filter rejects. *)
Definition rejected (include exclude : gset pystr) (mode : pystr) (b : yaml)
    : Prop :=
  exists m, b = YDict m
    /\ bullet_included (tags_of b) include exclude mode = Ok false.

(** The test of the loop over the bullets: the text is not empty and the
    tag filter accepts the tags. *)
Definition survives (include exclude : gset pystr) (mode : pystr) (b : yaml)
    : bool :=
  nonempty (bullet_text b)
  && match bullet_included (tags_of b) include exclude mode with
     | Ok keep => keep
     | Err _ => false
     end.

(** The texts a role or project shows under a filter, and those of a
    document: of the roles of its experience, then of its projects. *)
Definition entry_survivors (include exclude : gset pystr) (mode : pystr)
    (entry : yaml) : list pystr :=
  map bullet_text
    (List.filter (survives include exclude mode)
       (items_of (field entry (lit "bullets")))).

(** The lines of a role and of a project in the output: the heading, the
    bullets shown or the placeholder, and an empty line. *)
Definition role_block (include exclude : gset pystr) (mode : pystr)
    (role : yaml) : list pystr :=
  role_heading role ++ kept_lines (entry_survivors include exclude mode role)
  ++ [[]].

Definition project_block (include exclude : gset pystr) (mode : pystr)
    (p : yaml) : list pystr :=
  project_heading p ++ kept_lines (entry_survivors include exclude mode p)
  ++ [[]].


(** A bullet whose text normalises to the empty string. *)
Definition blank_bullet (b : yaml) : Prop :=
  (exists m, b = YDict m)
  /\ md_text (field_or b (lit "text") (YStr [])) = Ok [].

(** [str()] returns on the value; [norm_tags] returns on the tags. *)
Definition shows (v : yaml) : bool :=
  match py_str v with Ok _ => true | Err _ => false end.

Definition tags_ok (v : yaml) : bool :=
  match norm_tags v with Ok _ => true | Err _ => false end.

(** A bullet: a mapping whose text and tags can be turned into text. *)
Definition well_formed_bullet (b : yaml) : bool :=
  is_dict b && shows (field_or b (lit "text") (YStr []))
  && tags_ok (field b (lit "tags")).

(** A role and a project: a mapping whose heading fields can be turned
    into text and whose bullets, if any, are a sequence of bullets. *)
Definition well_formed_role (role : yaml) : bool :=
  is_dict role
  && shows (field_or role (lit "company") (YStr []))
  && shows (field_or role (lit "title") (YStr []))
  && shows (field_or role (lit "location") (YStr []))
  && shows (field_or role (lit "dates") (YStr []))
  && seq_of well_formed_bullet (field role (lit "bullets")).

Definition well_formed_project (p : yaml) : bool :=
  is_dict p
  && shows (field_or p (lit "name") (YStr []))
  && shows (field_or p (lit "dates") (YStr []))
  && seq_of well_formed_bullet (field p (lit "bullets")).

(** A skill: a mapping with a header and a skill that are strings. *)
Definition well_formed_skill (s : yaml) : bool :=
  is_str (field s (lit "header")) && is_str (field s (lit "skill")).

(** An education entry: a mapping whose fields can be turned into text. *)
Definition well_formed_school (e : yaml) : bool :=
  is_dict e
  && shows (field_or e (lit "school") (YStr []))
  && shows (field_or e (lit "detail") (YStr []))
  && shows (field_or e (lit "year") (YStr [])).

(** A contact field: missing or empty, or a value [str()] returns on. *)
Definition well_formed_contact (v : yaml) : bool :=
  negb (truthy v) || shows v.

(** A resume as the data model has it: a mapping; the name, if present, is
    a string; location, phone and email can be turned into text; the
    summary, if not empty, is a string; skills, experience, projects and
    education, if not empty, are sequences of such items. *)
Definition well_formed (data : yaml) : bool :=
  match data with
  | YDict m =>
      match m !! lit "name" with None => true | Some v => is_str v end
      && well_formed_contact (field data (lit "location"))
      && well_formed_contact (field data (lit "phone"))
      && well_formed_contact (field data (lit "email"))
      && (negb (truthy (field data (lit "summary")))
          || is_str (field data (lit "summary")))
      && seq_of well_formed_skill (field data (lit "skills"))
      && seq_of well_formed_role (field data (lit "experience"))
      && seq_of well_formed_project (field data (lit "projects"))
      && seq_of well_formed_school (field data (lit "education"))
  | _ => false
  end.

(** The fields of the heading of a role and of a project, in the order
    in which the renderers turn them into text. *)
Definition role_keys : list pystr :=
  [lit "company"; lit "title"; lit "location"; lit "dates"].

Definition project_keys : list pystr := [lit "name"; lit "dates"].

(** [str()] returns on each of the heading fields of a role or project. *)
Definition heading_shows (entry : yaml) (keys : list pystr) : bool :=
  forallb (fun k => shows (field_or entry k (YStr []))) keys.

(** [str()] returns on the contact fields that are not empty. *)
Definition contacts_ok (data : yaml) : bool :=
  forallb (fun k => well_formed_contact (field data k))
    [lit "location"; lit "phone"; lit "email"].

(** The list items of a role or project under the empty filter. *)
Definition entry_items (entry : yaml) : list pystr :=
  map bullet_line (List.filter nonempty (entry_bullets entry)).

End Bullets.

(** ** Documents to run the program on *)

Local Open Scope string_scope.
Local Open Scope list_scope.

Definition str (s : string) : yaml := YStr (lit s).
Definition fields (l : list (string * yaml)) : gmap pystr yaml :=
  list_to_map (map (fun kv => (lit kv.1, kv.2)) l).
Definition dict (l : list (string * yaml)) : yaml := YDict (fields l).

(** A resume with one role and one project: a bullet with two tags and
    text to trim, a bullet with one tag given as a string, a bullet of
    blank text, and a bullet without tags. *)
Definition engine : yaml :=
  dict [("name", str "Engine");
        ("bullets", YList [dict [("text", str "Notes")]])].

Definition sample : yaml :=
  dict [("name", str "Ada Lovelace");
        ("email", str "ada@example.org");
        ("summary", str "Engineer.");
        ("experience", YList [
           dict [("company", str "Acme"); ("title", str "Dev");
                 ("dates", YInt 2020);
                 ("bullets", YList [
                    dict [("text", str " Built a JVM service ");
                          ("tags", YList [str "Java"; str "AWS"])];
                    dict [("text", str "Wrote scripts");
                          ("tags", str "python")];
                    dict [("text", str "  ");
                          ("tags", str "java")]])]]);
        ("projects", YList [engine])].

(** The sample resume under the empty filter. *)
Definition sample_out : pystr :=
  Eval vm_compute in
    match build_md (py:=ascii_builtins) sample ∅ ∅ (lit "any") with
    | Ok s => s
    | Err _ => []
    end.

(** A document with a name only. *)
Definition name_only : gmap pystr yaml := {[ lit "name" := str "Ada" ]}.



(** A role whose bullets are tagged "python" and "aws". *)
Definition acme_bullets : list yaml :=
  [dict [("text", str "Wrote scripts"); ("tags", str "python")];
   dict [("text", str "Ran servers"); ("tags", YList [str "AWS"])]].

Definition acme : gmap pystr yaml :=
  fields [("company", str "Acme"); ("title", str "Dev");
          ("bullets", YList acme_bullets)].


Definition first_bullet : yaml := dict [("text", str "First")].
Definition last_bullet : yaml := dict [("text", str "Last")].


(** A bullet without tags. *)
Definition untagged : gmap pystr yaml := fields [("text", str "Notes")].

(** A role whose bullets are one string, not a sequence; a role with a
    bullet that is a plain string; a resume whose name is null; a resume
    with a skill that has no header. *)
Definition string_bullets : gmap pystr yaml :=
  fields [("company", str "Acme"); ("bullets", str "Built a service")].

Definition plain_bullet : gmap pystr yaml :=
  fields [("company", str "Acme");
          ("bullets", YList ([first_bullet] ++ str "Built" :: [last_bullet]))].

Definition null_name : gmap pystr yaml := fields [("name", YNone)].

Definition headless_skill : gmap pystr yaml :=
  fields [("name", str "Ada");
          ("skills", YList ([dict [("header", str "Languages");
                                   ("skill", str "Python")]]
                            ++ dict [("skill", str "Go")] :: []))].

(** Builtins whose parser reads every file as the sample resume. *)
Definition sample_builtins : Builtins :=
  {| lower := ascii_lower;
     repr_container := stub_repr;
     repr_raises := stub_repr_raises;
     safe_load := fun _ => Some sample;
     writable := fun _ => true |}.


Definition cli_java : cli :=
  {| opt_in := Some (lit "r.yaml"); opt_out := Some (lit "r.md");
     opt_include := Some (lit "Java, ,aws"); opt_exclude := Some (lit " , ");
     opt_mode := Some (lit "all") |}.

(** The files before and after [main] on [cli_java]. *)
Definition disk : files := {[ lit "r.yaml" := lit "name: Ada Lovelace" ]}.

Definition disk_after : files :=
  Eval vm_compute in (main (py:=sample_builtins) cli_java disk).2.

(** The sample resume under include = {java}. *)
Definition sample_java_out : pystr :=
  Eval vm_compute in
    match build_md (py:=ascii_builtins) sample {[lit "java"]} ∅ (lit "any") with
    | Ok s => s
    | Err _ => []
    end.

(** An integer of 4301 digits, as a YAML scalar in base 16 can give, and
    tags and a bullet that hold it. *)
Definition huge : Z := 10 ^ 4300.

Definition huge_tags : yaml := YList [str "Java"; YInt huge].

Definition blank_huge : yaml := dict [("text", str " "); ("tags", huge_tags)].

(** A role whose company is such an integer and whose bullets are one
    string; a role with such a bullet before a plain string; a resume
    whose phone is such an integer. *)
Definition huge_company : gmap pystr yaml :=
  fields [("company", YInt huge); ("bullets", str "Built a service")].

Definition huge_bullet : gmap pystr yaml :=
  fields [("company", str "Acme");
          ("bullets", YList ([blank_huge] ++ str "Built" :: []))].

Definition huge_phone : gmap pystr yaml :=
  fields [("name", str "Ada"); ("phone", YInt huge)].




Local Close Scope string_scope.

(** ** Results *)

Lemma bind_ok {A B} (a : A) (f : A -> result B) : (Ok a ≫= f) = f a.
Proof. reflexivity. Qed.

Lemma bind_inv {A B} (r : result A) (f : A -> result B) (b : B) :
  (r ≫= f) = Ok b -> exists a, r = Ok a /\ f a = Ok b.
Proof. destruct r as [a|e]; [eauto|discriminate]. Qed.

Lemma Ok_inj {A} (a b : A) : Ok a = Ok b -> a = b.
Proof. congruence. Qed.

(** Take the first call of a sequence that returned apart. *)
Ltac bind_step H x Hx :=
  apply bind_inv in H; destruct H as (x & Hx & H).

Lemma bind_ext {A B} (r : result A) (f g : A -> result B) :
  (forall a, f a = g a) -> (r ≫= f) = (r ≫= g).
Proof. intros E. destruct r; [apply E|reflexivity]. Qed.

Lemma Err_inj {A} (e e' : error) : @Err A e = Err e' -> e = e'.
Proof. congruence. Qed.

Lemma bind_err_inv {A B} (r : result A) (f : A -> result B) (e : error) :
  (r ≫= f) = Err e -> r = Err e \/ exists a, r = Ok a /\ f a = Err e.
Proof.
  destruct r as [a|e']; intros E; [right; eauto|left].
  by apply Err_inj in E as ->.
Qed.

(** ** The tag filter *)

Section TagFilter.
Context {py : Builtins}.

(** C1: exclude always wins. If the tags of the bullet meet the exclude set,
    [bullet_included] returns false for every include set and every mode. *)
Theorem bullet_included_exclude_wins (bullet_tags include exclude : gset pystr)
    (mode : pystr) :
  bullet_tags ∩ exclude ≠ ∅ ->
  bullet_included bullet_tags include exclude mode = Ok false.
Proof.
  intros Hmeet. unfold bullet_included.
  assert (exclude ≠ ∅) as Hex by (intros ->; apply Hmeet, intersection_empty_r_L).
  rewrite !bool_decide_eq_true_2 by done. reflexivity.
Qed.

Lemma not_excluded (bullet_tags exclude : gset pystr) :
  bullet_tags ∩ exclude = ∅ ->
  bool_decide (exclude ≠ ∅) && bool_decide (bullet_tags ∩ exclude ≠ ∅) = false.
Proof.
  intros Hd. rewrite (bool_decide_eq_false_2 (_ ∩ _ ≠ ∅)) by tauto.
  apply andb_false_r.
Qed.

(** C2: for a bullet that is not excluded and an include set that is not
    empty, [bullet_included] returns a boolean in both modes: with [any] it
    is true exactly when the tags meet the include set, with [all] exactly
    when the include set is a subset of the tags. *)
Theorem bullet_included_any_all (bullet_tags include exclude : gset pystr) :
  bullet_tags ∩ exclude = ∅ ->
  include ≠ ∅ ->
  (exists b, bullet_included bullet_tags include exclude (lit "any") = Ok b
             /\ (b = true <-> bullet_tags ∩ include ≠ ∅))
  /\ (exists b, bullet_included bullet_tags include exclude (lit "all") = Ok b
                /\ (b = true <-> include ⊆ bullet_tags)).
Proof.
  intros Hd Hinc. unfold bullet_included.
  rewrite (not_excluded _ _ Hd), (bool_decide_eq_false_2 (include = ∅)) by done.
  split.
  - rewrite (bool_decide_eq_true_2 (lit "any" = lit "any")) by done.
    eexists; split; [reflexivity|]. apply bool_decide_eq_true.
  - rewrite (bool_decide_eq_false_2 (lit "all" = lit "any")) by discriminate.
    rewrite (bool_decide_eq_true_2 (lit "all" = lit "all")) by done.
    eexists; split; [reflexivity|]. apply bool_decide_eq_true.
Qed.

(** C3: with an empty include set, every bullet that is not excluded is
    accepted, whatever the mode. *)
Theorem bullet_included_no_include (bullet_tags exclude : gset pystr)
    (mode : pystr) :
  bullet_tags ∩ exclude = ∅ ->
  bullet_included bullet_tags ∅ exclude mode = Ok true.
Proof.
  intros Hd. unfold bullet_included.
  rewrite (not_excluded _ _ Hd). reflexivity.
Qed.

(** The [ValueError] of an unknown mode, which only a bullet that is not
    excluded, under an include set that is not empty, can raise. *)
Lemma bullet_included_unknown_mode (bullet_tags include exclude : gset pystr)
    (mode : pystr) :
  mode ≠ lit "any" -> mode ≠ lit "all" ->
  bullet_tags ∩ exclude = ∅ -> include ≠ ∅ ->
  bullet_included bullet_tags include exclude mode
  = Err (ValueError (lit "Unknown mode: " ++ mode)).
Proof.
  intros Hany Hall Hd Hinc. unfold bullet_included.
  rewrite (not_excluded _ _ Hd).
  by rewrite !bool_decide_eq_false_2.
Qed.

Lemma py_str_error v err :
  py_str v = Err err -> err = ValueError digit_limit_msg.
Proof.
  destruct v as [|[]|z| | | |]; simpl; try discriminate.
  - destruct (_ <? _)%nat; [|discriminate]. intros E. by apply Err_inj in E.
  - apply repr_raises.
  - apply repr_raises.
Qed.

Lemma tag_texts_cons t tags :
  tag_texts (t :: tags)
  = (py_str t ≫= fun s =>
     tag_texts tags ≫= fun rest => Ok (strip (lower s) :: rest)).
Proof. reflexivity. Qed.


Lemma tag_texts_inv tags out :
  tag_texts tags = Ok out ->
  exists texts, Forall2 (fun t s => py_str t = Ok s) tags texts
    /\ out = map (fun s => strip (lower s)) texts.
Proof.
  revert out. induction tags as [|t tags IH]; intros out E.
  - apply Ok_inj in E as <-. by exists [].
  - rewrite tag_texts_cons in E. bind_step E s Hs. bind_step E rest Hrest.
    apply Ok_inj in E as <-. destruct (IH _ Hrest) as (texts & Hall & ->).
    exists (s :: texts). split; [by constructor|reflexivity].
Qed.

Lemma tag_texts_raises tags err :
  tag_texts tags = Err err -> exists t, t ∈ tags /\ py_str t = Err err.
Proof.
  induction tags as [|t tags IH]; [discriminate|].
  rewrite tag_texts_cons. intros E.
  apply bind_err_inv in E as [E|(s & _ & E)].
  - exists t. split; [apply list_elem_of_here|done].
  - apply bind_err_inv in E as [E|(rest & _ & E)]; [|discriminate].
    destruct (IH E) as (t' & Hin & Ht'). exists t'.
    split; [by apply list_elem_of_further|done].
Qed.

Lemma tag_texts_elem tags out x :
  tag_texts tags = Ok out ->
  x ∈ out <-> exists t s, t ∈ tags /\ py_str t = Ok s /\ x = strip (lower s).
Proof.
  intros E. apply tag_texts_inv in E as (texts & Hall & ->).
  rewrite list_elem_of_fmap. split.
  - intros (s & -> & Hs). apply list_elem_of_lookup in Hs as (i & Hi).
    destruct (Forall2_lookup_r _ _ _ _ _ Hall Hi) as (t & Ht & Hts).
    exists t, s. split; [by eapply list_elem_of_lookup_2|done].
  - intros (t & s & Ht & Hts & ->). apply list_elem_of_lookup in Ht as (i & Hi).
    destruct (Forall2_lookup_l _ _ _ _ _ Hall Hi) as (s' & Hs' & Hts').
    rewrite Hts in Hts'. apply Ok_inj in Hts' as <-.
    exists s. split; [done|]. by eapply list_elem_of_lookup_2.
Qed.

Lemma tag_texts_all_or_none tags tags' out err :
  (forall t, t ∈ tags -> t ∈ tags') ->
  tag_texts tags' = Ok out -> tag_texts tags = Err err -> False.
Proof.
  intros Hsub Hok Herr. apply tag_texts_raises in Herr as (t & Hin & Ht).
  apply tag_texts_inv in Hok as (texts & Hall & _).
  apply Hsub, list_elem_of_lookup in Hin as (i & Hi).
  destruct (Forall2_lookup_l _ _ _ _ _ Hall Hi) as (s' & _ & Hts').
  congruence.
Qed.


End TagFilter.

(** C1 on the example of the specification, with "aws" excluded. *)
Lemma bullet_included_exclude_wins_witness :
  bullet_included {[lit "java"; lit "aws"]} {[lit "java"]}
    {[lit "aws"]} (lit "any") = Ok false.
Proof.
  apply bullet_included_exclude_wins.
  intros E. assert (lit "aws" ∈ (∅ : gset pystr)) as Hin
    by (rewrite <- E; set_solver).
  set_solver.
Defined.

(** C2 on the example of the specification: include = {java}. *)
Lemma bullet_included_any_all_witness :
  bullet_included {[lit "java"; lit "aws"]} {[lit "java"]}
    ∅ (lit "any") = Ok true
  /\ bullet_included {[lit "python"]} {[lit "java"]}
       ∅ (lit "any") = Ok false.
Proof.
  split.
  - destruct (bullet_included_any_all
               {[lit "java"; lit "aws"]} {[lit "java"]} ∅) as [(b & -> & Hb) _].
    + set_solver.
    + intros E. assert (lit "java" ∈ (∅ : gset pystr)) as Hin
        by (rewrite <- E; set_solver). set_solver.
    + f_equal. apply Hb. intros E.
      assert (lit "java" ∈ (∅ : gset pystr)) as Hin
        by (rewrite <- E; set_solver). set_solver.
  - destruct (bullet_included_any_all
               {[lit "python"]} {[lit "java"]} ∅) as [(b & -> & Hb) _].
    + set_solver.
    + intros E. assert (lit "java" ∈ (∅ : gset pystr)) as Hin
        by (rewrite <- E; set_solver). set_solver.
    + f_equal. destruct b; [|done]. exfalso.
      destruct Hb as [Hb _]. apply Hb; [done|].
      apply set_eq. intros x. rewrite elem_of_intersection, !elem_of_singleton.
      split; [|set_solver]. intros [-> E]. discriminate E.
Defined.

(** C3 on a bullet tagged "python", with "aws" excluded. *)
Lemma bullet_included_no_include_witness :
  bullet_included {[lit "python"]} ∅ {[lit "aws"]}
    (lit "all") = Ok true.
Proof.
  apply bullet_included_no_include.
  apply set_eq. intros x. rewrite elem_of_intersection, !elem_of_singleton.
  split; [|set_solver]. intros [-> E]. discriminate E.
Defined.



(** ** Facts on strings *)

Section Strings.
Implicit Types (s t w : pystr) (c : N).

Lemma lstrip_head s c t : lstrip s = c :: t -> is_space c = false.
Proof.
  induction s as [|a s IH]; simpl; [discriminate|].
  destruct (is_space a) eqn:Ea; [exact IH|].
  intros E. injection E as -> _. exact Ea.
Qed.

Lemma lstrip_split s : exists w, s = w ++ lstrip s /\ blank w.
Proof.
  induction s as [|a s (w & Hs & Hw)]; simpl.
  - exists []. split; [reflexivity|constructor].
  - destruct (is_space a) eqn:Ea.
    + exists (a :: w). split; [simpl; congruence|by constructor].
    + exists []. split; [reflexivity|constructor].
Qed.

Lemma lstrip_clean c s : is_space c = false -> lstrip (c :: s) = c :: s.
Proof. intros E. simpl. by rewrite E. Qed.

Lemma lstrip_app_clean s c t :
  is_space c = false -> lstrip (s ++ c :: t) = lstrip s ++ c :: t.
Proof.
  intros Ec. induction s as [|a s IH]; simpl.
  - by rewrite Ec.
  - destruct (is_space a); [exact IH|reflexivity].
Qed.

Lemma rstrip_split s : exists w, s = rstrip s ++ w /\ blank w.
Proof.
  destruct (lstrip_split (rev s)) as (w & Hs & Hw).
  exists (rev w). split.
  - unfold rstrip. rewrite <- rev_app_distr, <- Hs. symmetry. apply rev_involutive.
  - by apply List.Forall_rev.
Qed.

Lemma rstrip_last s t c : rstrip s = t ++ [c] -> is_space c = false.
Proof.
  unfold rstrip. intros E.
  apply (f_equal (@rev N)) in E. rewrite rev_involutive, rev_unit in E.
  by apply lstrip_head in E.
Qed.

Lemma rstrip_cons_clean c s :
  is_space c = false -> rstrip (c :: s) = c :: rstrip s.
Proof.
  intros Ec. unfold rstrip. simpl.
  rewrite (lstrip_app_clean _ _ [] Ec), rev_unit. reflexivity.
Qed.

(** [strip] takes white space from both ends, and nothing else. *)
Lemma strip_split s : exists w1 w2, s = w1 ++ strip s ++ w2 /\ blank w1 /\ blank w2.
Proof.
  destruct (rstrip_split s) as (w2 & Hs & Hw2).
  destruct (lstrip_split (rstrip s)) as (w1 & Hr & Hw1).
  exists w1, w2. split; [|done].
  unfold strip. rewrite app_assoc, <- Hr. exact Hs.
Qed.

Lemma strip_head s c t : strip s = c :: t -> is_space c = false.
Proof. apply lstrip_head. Qed.

Lemma strip_last s t c : strip s = t ++ [c] -> is_space c = false.
Proof.
  unfold strip. intros E.
  destruct (lstrip_split (rstrip s)) as (w & Hr & _).
  rewrite E, app_assoc in Hr. by apply rstrip_last in Hr.
Qed.

Lemma strip_cons_clean c s :
  is_space c = false -> exists t, strip (c :: s) = c :: t.
Proof.
  intros Ec. unfold strip. rewrite (rstrip_cons_clean _ _ Ec).
  rewrite (lstrip_clean _ _ Ec). eauto.
Qed.

Lemma join_cons sep x y l :
  join sep (x :: y :: l) = x ++ sep ++ join sep (y :: l).
Proof. reflexivity. Qed.

Lemma join_head sep c t l : exists u, join sep ((c :: t) :: l) = c :: u.
Proof. destruct l; simpl; eauto. Qed.

End Strings.

(** ** Sections and assembly *)

Section Assembly.
Context {py : Builtins}.

Lemma render_header_head data h :
  render_header data = Ok h -> exists t, h = 35 :: t.
Proof.
  unfold render_header. intros E.
  bind_step E n Hn. bind_step E name Hname. bind_step E bits Hbits.
  apply Ok_inj in E as <-.
  destruct (strip_cons_clean 35 (32 :: name) eq_refl) as (t & Ht).
  change (lit "# " ++ name) with (35 :: 32 :: name). rewrite Ht.
  destruct bits; apply join_head.
Qed.

Lemma falsy_or_empty v : truthy v = false -> truthy (or_empty v) = false.
Proof. unfold or_empty. intros ->. reflexivity. Qed.

(** C8: when [build_md] returns, the six renderers have returned, and the
    output is their results that are not empty, in the order header, summary,
    skills, experience, projects, education, joined by newlines and trimmed,
    with one newline after: the character before that newline is no white
    space. *)
Theorem build_md_assembles data include exclude mode out :
  build_md data include exclude mode = Ok out ->
  exists h s k x p e body c,
    render_header data = Ok h /\ render_summary data = Ok s
    /\ render_skills data = Ok k
    /\ render_experience data include exclude mode = Ok x
    /\ render_projects data include exclude mode = Ok p
    /\ render_education data = Ok e
    /\ body ++ [c] = strip (join nl (List.filter nonempty [h; s; k; x; p; e]))
    /\ is_space c = false
    /\ out = body ++ [c] ++ nl.
Proof.
  unfold build_md. intros E.
  bind_step E h Hh. bind_step E s Hs. bind_step E k Hk.
  bind_step E x Hx. bind_step E p Hp. bind_step E e He.
  apply Ok_inj in E as <-.
  destruct (render_header_head _ _ Hh) as (t & ->).
  set (parts := List.filter nonempty [35 :: t; s; k; x; p; e]).
  assert (exists u, strip (join nl parts) = 35 :: u) as (u & Hu).
  { subst parts.
    change (List.filter nonempty [35 :: t; s; k; x; p; e])
      with ((35 :: t) :: List.filter nonempty [s; k; x; p; e]).
    destruct (join_head nl 35 t
                (List.filter nonempty [s; k; x; p; e])) as (v & ->).
    by apply strip_cons_clean. }
  destruct (exists_last (l:=strip (join nl parts))) as (body & c & Hbody).
  { by rewrite Hu. }
  exists (35 :: t), s, k, x, p, e, body, c.
  do 6 (split; [done|]). split; [|split].
  - by symmetry.
  - by apply strip_last in Hbody.
  - unfold assemble. fold parts. rewrite Hbody, <- app_assoc. reflexivity.
Qed.

(** C7 (amended): the summary, skills, experience, projects and education
    renderers return the empty string when the field of the document is
    missing or empty; a section that is the empty string leaves no trace in
    the assembled output. The header renderer never returns the empty
    string: whenever it returns, its result is the heading line with the
    name, an empty line, the rule and two empty lines, before the contact
    line if there is one; and on a name that is present and is no string
    it does not return, it raises a type error. *)
Theorem empty_sections_omitted (m : gmap pystr yaml)
    (include exclude : gset pystr) (mode : pystr) :
  (truthy (default YNone (m !! lit "summary")) = false ->
   render_summary (YDict m) = Ok [])
  /\ (truthy (default YNone (m !! lit "skills")) = false ->
      render_skills (YDict m) = Ok [])
  /\ (truthy (default YNone (m !! lit "experience")) = false ->
      render_experience (YDict m) include exclude mode = Ok [])
  /\ (truthy (default YNone (m !! lit "projects")) = false ->
      render_projects (YDict m) include exclude mode = Ok [])
  /\ (truthy (default YNone (m !! lit "education")) = false ->
      render_education (YDict m) = Ok [])
  /\ (forall before after,
        assemble (before ++ [] :: after) = assemble (before ++ after))
  /\ (forall data h,
        render_header data = Ok h ->
        h ≠ []
        /\ exists n name tail,
             dict_get_or data (lit "name") (YStr []) = Ok n
             /\ md_escape n = Ok name
             /\ h = strip (lit "# " ++ name) ++ [LF; LF] ++ lit "----"
                    ++ [LF; LF; LF] ++ tail)
  /\ (forall v,
        m !! lit "name" = Some v -> is_str v = false ->
        render_header (YDict m) = Err BadType).
Proof.
  split; [|split; [|split; [|split; [|split; [|split; [|split]]]]]].
  - intros E. unfold render_summary, dict_get. rewrite bind_ok, E. reflexivity.
  - intros E. unfold render_skills, dict_get.
    rewrite bind_ok, (falsy_or_empty _ E). reflexivity.
  - intros E. unfold render_experience, dict_get.
    rewrite bind_ok, (falsy_or_empty _ E). reflexivity.
  - intros E. unfold render_projects, dict_get.
    rewrite bind_ok, (falsy_or_empty _ E). reflexivity.
  - intros E. unfold render_education, dict_get.
    rewrite bind_ok, (falsy_or_empty _ E). reflexivity.
  - intros before after. unfold assemble.
    rewrite !List.filter_app. reflexivity.
  - intros data h E. split; [by destruct (render_header_head _ _ E) as (t & ->)|].
    unfold render_header in E.
    bind_step E n Hn. bind_step E name Hname. bind_step E bits Hbits.
    apply Ok_inj in E as <-. exists n, name.
    destruct bits as [|bit bits]; eexists; (split; [done|]); (split; [done|]).
    + instantiate (1 := []). cbn [join app]. by rewrite !app_nil_r.
    + cbn [join app]. reflexivity.
  - intros v Hm Hv. unfold render_header, dict_get_or. rewrite bind_ok, Hm.
    destruct v; try discriminate Hv; reflexivity.
Qed.

(** C6: a mode other than [any] and [all] on the command line ends the
    program with a usage error and leaves every file as it was; and in
    [bullet_included] such a mode raises [ValueError], for a bullet that is
    not excluded under an include set that is not empty. *)
Theorem unknown_mode_aborts (c : cli) (fs : files) (m : pystr) :
  opt_mode c = Some m ->
  m ≠ lit "any" -> m ≠ lit "all" ->
  main c fs = (Err (SystemExit 2), fs)
  /\ (forall bullet_tags include exclude : gset pystr,
        bullet_tags ∩ exclude = ∅ -> include ≠ ∅ ->
        bullet_included bullet_tags include exclude m
        = Err (ValueError (lit "Unknown mode: " ++ m))).
Proof.
  intros Hm Hany Hall. split.
  - unfold main, parse_args. rewrite Hm.
    by rewrite !bool_decide_eq_false_2.
  - intros. by apply bullet_included_unknown_mode.
Qed.

End Assembly.

Lemma sample_renders :
  build_md (py:=ascii_builtins) sample ∅ ∅ (lit "any") = Ok sample_out.
Proof. vm_compute. reflexivity. Qed.

(** C8 on the sample resume. *)
Lemma build_md_assembles_witness :
  build_md (py:=ascii_builtins) sample ∅ ∅ (lit "any") = Ok sample_out
  /\ exists body c, is_space c = false /\ sample_out = body ++ [c] ++ nl.
Proof.
  split; [exact sample_renders|].
  destruct (build_md_assembles (py:=ascii_builtins) sample ∅ ∅ (lit "any")
              sample_out sample_renders)
    as (h & s & k & x & p & e & body & c & _ & _ & _ & _ & _ & _ & _ & Hc & Ho).
  exists body, c. split; [exact Hc|exact Ho].
Defined.

(** C7 on a document with a name only: five sections are empty. *)
Lemma empty_sections_omitted_witness :
  render_summary (YDict name_only) = Ok []
  /\ render_skills (py:=ascii_builtins) (YDict name_only) = Ok []
  /\ render_experience (py:=ascii_builtins) (YDict name_only) ∅ ∅ (lit "any")
     = Ok []
  /\ render_projects (py:=ascii_builtins) (YDict name_only) ∅ ∅ (lit "any")
     = Ok []
  /\ render_education (py:=ascii_builtins) (YDict name_only) = Ok [].
Proof.
  destruct (empty_sections_omitted (py:=ascii_builtins) name_only ∅ ∅
              (lit "any")) as (H1 & H2 & H3 & H4 & H5 & _).
  split; [apply H1; vm_compute; reflexivity|].
  split; [apply H2; vm_compute; reflexivity|].
  split; [apply H3; vm_compute; reflexivity|].
  split; [apply H4; vm_compute; reflexivity|].
  apply H5; vm_compute; reflexivity.
Defined.

(** C7 as stated fails on the header: for a document with no field at all
    it is the heading mark and the rule. *)
Lemma render_header_not_empty :
  render_header (py:=ascii_builtins) (YDict ∅)
  = Ok (35 :: LF :: LF :: lit "----" ++ [LF; LF; LF])
  /\ render_header (py:=ascii_builtins) (YDict ∅) ≠ Ok [].
Proof. split; [vm_compute; reflexivity|vm_compute; discriminate]. Qed.

(** C6 on the command line [--in r.yaml --out r.md --mode xml]. *)
Lemma unknown_mode_aborts_witness :
  let c := {| opt_in := Some (lit "r.yaml"); opt_out := Some (lit "r.md");
              opt_include := None; opt_exclude := None;
              opt_mode := Some (lit "xml") |} in
  main (py:=ascii_builtins) c ∅ = (Err (SystemExit 2), ∅).
Proof.
  intros c.
  apply (unknown_mode_aborts (py:=ascii_builtins) c ∅ (lit "xml"));
    [reflexivity|discriminate|discriminate].
Defined.

(** ** Items that occur in order *)

Section Occurs.
Implicit Types (s p q x w : pystr) (l : list pystr).




(** Items that occur in the empty string are empty, and occur anywhere. *)
Lemma occurs_in_nil l s : occurs_in_order l [] -> occurs_in_order l s.
Proof.
  revert s. induction l as [|x l IH]; intros s; [done|].
  intros (p & q & E & Hq).
  symmetry in E. apply app_eq_nil in E as [-> E].
  apply app_eq_nil in E as [-> ->].
  exists [], s. split; [reflexivity|by apply IH].
Qed.














End Occurs.

(** ** Bullets kept and bullets left out *)

Section Kept.
Context {py : Builtins}.
Implicit Types (include exclude : gset pystr) (mode : pystr).

(** One turn of the loop over the bullets, on a bullet that is a mapping. *)
Lemma keep_bullets_cons m bullets include exclude mode kept :
  keep_bullets (YDict m :: bullets) include exclude mode kept
  = (md_text (field_or (YDict m) (lit "text") (YStr [])) ≫= fun text =>
     norm_tags (field (YDict m) (lit "tags")) ≫= fun tags =>
     (if nonempty text then bullet_included tags include exclude mode
      else Ok false)
     ≫= fun keep : bool =>
         keep_bullets bullets include exclude mode
           (if keep then kept ++ [text] else kept)).
Proof. reflexivity. Qed.

(** The same turn when the loop returns: the text and the tags were
    turned into text, and the test returned. *)
Lemma keep_bullets_cons_inv m bullets include exclude mode kept r :
  keep_bullets (YDict m :: bullets) include exclude mode kept = Ok r ->
  exists text tags (keep : bool),
    md_text (field_or (YDict m) (lit "text") (YStr [])) = Ok text
    /\ norm_tags (field (YDict m) (lit "tags")) = Ok tags
    /\ bullet_text (YDict m) = text /\ tags_of (YDict m) = tags
    /\ (if nonempty text then bullet_included tags include exclude mode
        else Ok false) = Ok keep
    /\ keep_bullets bullets include exclude mode
         (if keep then kept ++ [text] else kept) = Ok r.
Proof.
  rewrite keep_bullets_cons. intros E.
  bind_step E text Ht. bind_step E tags Hg. bind_step E keep Hk.
  exists text, tags, keep. repeat (split; [done|]).
  split; [by unfold bullet_text, text_of; rewrite Ht|].
  split; [by unfold tags_of; rewrite Hg|]. done.
Qed.

Lemma filter_cons_eq {A} (f : A -> bool) x l :
  List.filter f (x :: l)
  = if f x then x :: List.filter f l else List.filter f l.
Proof. reflexivity. Qed.

(** The loop is a filter. *)
Lemma keep_bullets_filter bullets include exclude mode kept r :
  keep_bullets bullets include exclude mode kept = Ok r ->
  r = kept ++ map bullet_text (List.filter (survives include exclude mode) bullets).
Proof.
  revert kept. induction bullets as [|b bullets IH]; intros kept E.
  - apply Ok_inj in E as <-. by rewrite app_nil_r.
  - destruct b as [| | | | | |m]; try discriminate E.
    apply keep_bullets_cons_inv in E
      as (text & tags & keep & _ & _ & Ht & Hg & Hk & E).
    apply IH in E as ->. rewrite filter_cons_eq.
    assert (survives include exclude mode (YDict m)
            = nonempty text
              && match bullet_included tags include exclude mode with
                 | Ok keep => keep
                 | Err _ => false
                 end) as -> by (unfold survives; by rewrite Ht, Hg).
    destruct (nonempty text); cbn [andb].
    + rewrite Hk. destruct keep; [|done]. by rewrite map_cons, Ht, <- app_assoc.
    + by apply Ok_inj in Hk as <-.
Qed.



Lemma not_survives include exclude mode b :
  rejected include exclude mode b \/ blank_bullet b ->
  survives include exclude mode b = false.
Proof.
  unfold survives. intros [(m & -> & Hrej)|[[m ->] Ht]].
  - rewrite Hrej. apply andb_false_r.
  - unfold bullet_text, text_of. by rewrite Ht.
Qed.


Lemma kept_lines_bullets kept :
  kept_lines kept ≠ []
  /\ Forall (fun line => exists t, line = lit "- " ++ t) (kept_lines kept).
Proof.
  destruct kept as [|t kept].
  - split; [done|]. constructor; [|constructor].
    by exists (lit "(No bullets matched selected tags.)").
  - split; [done|]. apply Forall_forall. intros line Hin.
    change (kept_lines (t :: kept)) with (map bullet_line (t :: kept)) in Hin.
    apply list_elem_of_fmap in Hin as (u & -> & _). by exists u.
Qed.


End Kept.


(** ** The lines of the output *)

Section Lines.
Context {py : Builtins}.
Implicit Types (include exclude : gset pystr) (mode : pystr).

Lemma or_empty_truthy v : truthy (or_empty v) = truthy v.
Proof. unfold or_empty. by destruct (truthy v) eqn:E. Qed.

Lemma falsy_items v : truthy v = false -> items_of v = [].
Proof. destruct v as [| | | | |l|]; try done. by destruct l. Qed.

(** A loop over [v or []] visits the items of a sequence, or else meets a
    string first: a character of a string or a key of a dict. *)
Lemma iter_or_empty v items :
  iter_items (or_empty v) = Ok items ->
  items = items_of v \/ exists k rest, items = YStr k :: rest.
Proof.
  unfold or_empty. destruct (truthy v) eqn:Et.
  - destruct v as [| | |s| |l|m]; simpl; try discriminate.
    + destruct s as [|c s]; [discriminate|]. intros [= <-]. right. by eexists _, _.
    + intros [= <-]. by left.
    + intros [= <-]. right.
      destruct (map_to_list m) as [|[k x] rest] eqn:Em.
      * apply map_to_list_empty_iff in Em as ->.
        simpl in Et. by rewrite map_size_empty in Et.
      * by eexists _, _.
  - intros [= <-]. left. symmetry. by apply falsy_items.
Qed.

Lemma iter_truthy v : truthy v = true -> iter_items (or_empty v) ≠ Ok [].
Proof.
  intros Et. unfold or_empty. rewrite Et.
  destruct v as [| | |s| |l|m]; simpl; try discriminate.
  - by destruct s.
  - by destruct l.
  - destruct (map_to_list m) as [|[k x] rest] eqn:Em; [|discriminate].
    apply map_to_list_empty_iff in Em as ->.
    simpl in Et. by rewrite map_size_empty in Et.
Qed.

Lemma text_of_ok v t : md_text v = Ok t -> text_of v = t.
Proof. unfold text_of. by intros ->. Qed.

Lemma experience_loop_cons role roles include exclude mode out :
  experience_loop (role :: roles) include exclude mode out
  = (experience_entry role include exclude mode ≫= fun lines =>
     experience_loop roles include exclude mode (out ++ lines)).
Proof. reflexivity. Qed.

Lemma projects_loop_cons p projects include exclude mode out :
  projects_loop (p :: projects) include exclude mode out
  = (project_entry p include exclude mode ≫= fun lines =>
     projects_loop projects include exclude mode (out ++ lines)).
Proof. reflexivity. Qed.

(** What one turn of the loop over the roles adds, when it returns. *)
Lemma experience_entry_block role include exclude mode lines :
  experience_entry role include exclude mode = Ok lines ->
  lines = role_block include exclude mode role.
Proof.
  destruct role as [| | | | | |m]; try discriminate.
  unfold experience_entry, dict_get_or, dict_get. rewrite !bind_ok.
  intros E. bind_step E company Hc. rewrite !bind_ok in E.
  bind_step E title Ht. rewrite !bind_ok in E.
  bind_step E location Hl. rewrite !bind_ok in E.
  bind_step E dates Hd. rewrite !bind_ok in E.
  bind_step E bullets Hb. bind_step E kept Hk.
  apply Ok_inj in E as <-.
  destruct (iter_or_empty _ _ Hb) as [->|(k & rest & ->)]; [|discriminate Hk].
  apply keep_bullets_filter in Hk as ->.
  unfold role_block, role_heading, field_or.
  by rewrite (text_of_ok _ _ Hc), (text_of_ok _ _ Ht), (text_of_ok _ _ Hl),
    (text_of_ok _ _ Hd).
Qed.

Lemma project_entry_block p include exclude mode lines :
  project_entry p include exclude mode = Ok lines ->
  lines = project_block include exclude mode p.
Proof.
  destruct p as [| | | | | |m]; try discriminate.
  unfold project_entry, dict_get_or, dict_get. rewrite !bind_ok.
  intros E. bind_step E name Hn. rewrite !bind_ok in E.
  bind_step E dates Hd. rewrite !bind_ok in E.
  bind_step E bullets Hb. bind_step E kept Hk.
  apply Ok_inj in E as <-.
  destruct (iter_or_empty _ _ Hb) as [->|(k & rest & ->)]; [|discriminate Hk].
  apply keep_bullets_filter in Hk as ->.
  unfold project_block, project_heading, field_or.
  by rewrite (text_of_ok _ _ Hn), (text_of_ok _ _ Hd).
Qed.

Lemma experience_loop_blocks roles include exclude mode out out' :
  experience_loop roles include exclude mode out = Ok out' ->
  out' = out ++ concat (map (role_block include exclude mode) roles).
Proof.
  revert out. induction roles as [|role roles IH]; intros out E.
  - apply Ok_inj in E as <-. by rewrite app_nil_r.
  - rewrite experience_loop_cons in E. bind_step E lines Hl.
    apply experience_entry_block in Hl as ->. apply IH in E as ->.
    by rewrite <- app_assoc.
Qed.

Lemma projects_loop_blocks projects include exclude mode out out' :
  projects_loop projects include exclude mode out = Ok out' ->
  out' = out ++ concat (map (project_block include exclude mode) projects).
Proof.
  revert out. induction projects as [|p projects IH]; intros out E.
  - apply Ok_inj in E as <-. by rewrite app_nil_r.
  - rewrite projects_loop_cons in E. bind_step E lines Hl.
    apply project_entry_block in Hl as ->. apply IH in E as ->.
    by rewrite <- app_assoc.
Qed.

(** The experience section, when it returns: nothing without roles, and
    else the title lines and the blocks of the roles, joined. *)
Lemma render_experience_blocks data include exclude mode x :
  render_experience data include exclude mode = Ok x ->
  x = match items_of (field data (lit "experience")) with
      | [] => []
      | roles =>
          join nl ([lit "## Professional Experience"; []; lit "----"; nl]
                   ++ concat (map (role_block include exclude mode) roles))
      end.
Proof.
  destruct data as [| | | | | |m]; try discriminate.
  unfold render_experience, dict_get. rewrite bind_ok, or_empty_truthy.
  unfold field. destruct (truthy _) eqn:Et; simpl negb; cbv iota.
  - intros E. bind_step E roles Hr. bind_step E out Ho.
    apply Ok_inj in E as <-.
    destruct (iter_or_empty _ _ Hr) as [->|(k & rest & ->)]; [|discriminate Ho].
    apply experience_loop_blocks in Ho as ->.
    destruct (items_of _) eqn:Ei; [|done]. by apply iter_truthy in Hr.
  - intros E. apply Ok_inj in E as <-. by rewrite (falsy_items _ Et).
Qed.

Lemma render_projects_blocks data include exclude mode x :
  render_projects data include exclude mode = Ok x ->
  x = match items_of (field data (lit "projects")) with
      | [] => []
      | projects =>
          join nl ([lit "## Projects"; []; lit "----"; nl]
                   ++ concat (map (project_block include exclude mode) projects))
      end.
Proof.
  destruct data as [| | | | | |m]; try discriminate.
  unfold render_projects, dict_get. rewrite bind_ok, or_empty_truthy.
  unfold field. destruct (truthy _) eqn:Et; simpl negb; cbv iota.
  - intros E. bind_step E ps Hr. bind_step E out Ho.
    apply Ok_inj in E as <-.
    destruct (iter_or_empty _ _ Hr) as [->|(k & rest & ->)]; [|discriminate Ho].
    apply projects_loop_blocks in Ho as ->.
    destruct (items_of _) eqn:Ei; [|done]. by apply iter_truthy in Hr.
  - intros E. apply Ok_inj in E as <-. by rewrite (falsy_items _ Et).
Qed.

(** *** The bullets shown occur in order *)






Lemma text_of_strip v : exists u, text_of v = strip u.
Proof.
  unfold text_of, md_text. destruct (py_str v) as [s|]; [|by exists []].
  rewrite bind_ok. by eexists.
Qed.






End Lines.



(** ** The block of a role and of a project *)

Section Blocks.
Context {py : Builtins}.
Implicit Types (include exclude : gset pystr) (mode : pystr).

Lemma join_app sep (a b : list pystr) :
  a ≠ [] -> b ≠ [] -> join sep (a ++ b) = join sep a ++ sep ++ join sep b.
Proof.
  intros Ha Hb. induction a as [|x a IH]; [done|].
  destruct a as [|y a].
  - destruct b; [done|reflexivity].
  - change ((x :: y :: a) ++ b) with (x :: (y :: a) ++ b).
    change ((y :: a) ++ b) with (y :: a ++ b).
    rewrite !join_cons. change (y :: a ++ b) with ((y :: a) ++ b).
    rewrite IH by done. by rewrite <- !app_assoc.
Qed.

(** Lines that stand together in a list stand together in its join, each
    with its line end when more lines follow. *)
Lemma join_infix sep (before lines after : list pystr) :
  lines ≠ [] -> after ≠ [] ->
  exists p q,
    join sep (before ++ lines ++ after) = p ++ join sep lines ++ sep ++ q.
Proof.
  intros Hl Ha. destruct before as [|x before].
  - exists [], (join sep after). simpl app.
    by rewrite (join_app sep lines after).
  - exists (join sep (x :: before) ++ sep), (join sep after).
    rewrite (join_app sep (x :: before) (lines ++ after))
      by (done || by destruct lines).
    rewrite (join_app sep lines after) by done.
    by rewrite <- !app_assoc.
Qed.

Lemma join_elem sep (x : pystr) (l : list pystr) :
  x ∈ l -> exists p q, join sep l = p ++ x ++ q.
Proof.
  intros Hx. apply list_elem_of_split in Hx as (l1 & l2 & ->).
  destruct (decide (l2 = [])) as [->|Hl2].
  - destruct l1 as [|y l1]; [exists [], []; by rewrite app_nil_r|].
    exists (join sep (y :: l1) ++ sep), [].
    rewrite join_app by done. by rewrite app_nil_r, <- app_assoc.
  - destruct (join_infix sep l1 [x] l2) as (p & q & E); [done..|].
    exists p, (sep ++ q). exact E.
Qed.

Lemma join_last sep (l : list pystr) (x : pystr) (c : N) :
  exists u, join sep (l ++ [x ++ [c]]) = u ++ [c].
Proof.
  destruct l as [|y l].
  - by exists x.
  - exists (join sep (y :: l) ++ sep ++ x).
    rewrite join_app by done. by rewrite <- !app_assoc.
Qed.

(** A text with no white space at its ends, followed by a line end,
    stays in a string that is trimmed and given a line end. *)
Lemma strip_keeps_line (x s p q : pystr) :
  clean x -> s = p ++ x ++ nl ++ q ->
  exists p' q', strip s ++ nl = p' ++ x ++ nl ++ q'.
Proof.
  intros [(c & t & -> & Hc) Hlast] Hs.
  destruct (strip_split s) as (w1 & w2 & Hsplit & Hw1 & Hw2).
  rewrite Hsplit in Hs. clear Hsplit.
  assert (exists p', strip s ++ w2 = p' ++ (c :: t) ++ nl ++ q) as (p' & E).
  { clear Hlast. revert p Hs. induction Hw1 as [|a w1 Ha _ IH]; intros p Hs.
    - by exists p.
    - destruct p as [|b p]; simpl in Hs.
      + injection Hs as -> _. congruence.
      + injection Hs as _ Hs. by apply IH in Hs. }
  rewrite app_assoc in E. apply app_eq_app in E as (l & [[E1 E2]|[E1 E2]]).
  - rewrite E1. destruct l as [|a l].
    + exists p', []. by rewrite !app_nil_r, <- app_assoc.
    + simpl in E2. injection E2 as <- _.
      exists p', (l ++ nl). by rewrite <- !app_assoc.
  - destruct l as [|a l _] using rev_ind.
    + rewrite app_nil_r in E1. rewrite <- E1.
      exists p', []. by rewrite app_nil_r, <- app_assoc.
    + exfalso.
      assert (is_space a = true) as Ha.
      { rewrite E2 in Hw2. apply Forall_app in Hw2 as [Hw2 _].
        apply Forall_app in Hw2 as [_ Hw2]. by apply Forall_cons in Hw2 as [? _]. }
      destruct (exists_last (l:=c :: t)) as (x0 & d & Hx); [done|].
      rewrite Hx, !app_assoc in E1. apply app_inj_tail in E1 as [_ ->].
      specialize (Hlast _ _ Hx). congruence.
Qed.

Lemma kept_lines_last include exclude mode entry :
  exists lines x c,
    kept_lines (entry_survivors include exclude mode entry)
    = lines ++ [x ++ [c]]
    /\ is_space c = false.
Proof.
  unfold entry_survivors.
  destruct (List.filter _ _) as [|b0 l0] eqn:Ef.
  { exists [], (lit "- (No bullets matched selected tags."), 41. by split. }
  destruct (exists_last (l:=b0 :: l0)) as (bs & b & Hl); [done|].
  rewrite Hl in *. clear Hl b0 l0.
  - rewrite map_app. simpl map.
    assert (survives include exclude mode b = true) as Hb.
    { assert (In b (bs ++ [b])) as Hin by (apply in_or_app; right; by left).
      rewrite <- Ef in Hin. by apply filter_In in Hin as [_ ?]. }
    apply andb_prop in Hb as [Hb _].
    destruct (text_of_strip (field_or b (lit "text") (YStr []))) as (u & Hu).
    destruct (exists_last (l:=bullet_text b)) as (t0 & d & Ht);
      [by destruct (bullet_text b)|].
    exists (map bullet_line (map bullet_text bs)), (lit "- " ++ t0), d.
    split.
    + assert (kept_lines (map bullet_text bs ++ [bullet_text b])
              = map bullet_line (map bullet_text bs ++ [bullet_text b])) as ->
        by (by destruct (map bullet_text bs)).
      rewrite map_app. simpl map. unfold bullet_line at 2.
      by rewrite Ht, app_assoc.
    + unfold bullet_text in Ht. rewrite Hu in Ht.
      by apply strip_last in Ht.
Qed.

(** The heading and the list of a role or project, joined, have no white
    space at their ends. *)
Lemma block_text_clean include exclude mode entry (h : pystr)
    (heading : list pystr) :
  clean (join nl ((strip (42 :: h) :: heading)
                  ++ kept_lines (entry_survivors include exclude mode entry))).
Proof.
  destruct (kept_lines_last include exclude mode entry)
    as (lines & x & c & -> & Hc).
  destruct (strip_cons_clean 42 h eq_refl) as (t & ->). split.
  - destruct (join_head nl 42 t (heading ++ lines ++ [x ++ [c]])) as (u & E).
    exists 42, u. split; [exact E|reflexivity].
  - intros t' d E.
    destruct (join_last nl (((42 :: t) :: heading) ++ lines) x c) as (u & Hu).
    rewrite <- app_assoc in Hu. rewrite Hu in E.
    by apply app_inj_tail in E as [_ <-].
Qed.

(** Where a block stands in the output. *)
Lemma block_in_output {A} (block : A -> list pystr) (title : list pystr)
    (entries : list A) (entry : A) (lines : list pystr) (x : pystr)
    (parts : list pystr) :
  entry ∈ entries ->
  block entry = lines ++ [[]] ->
  lines ≠ [] ->
  clean (join nl lines) ->
  x = join nl (title ++ concat (map block entries)) ->
  x ∈ parts ->
  exists p q, assemble parts = p ++ join nl lines ++ nl ++ q.
Proof.
  intros Hin Hblock Hlines Hclean -> Hx.
  apply list_elem_of_split in Hin as (before & after & ->).
  rewrite map_app, concat_app in Hx. simpl in Hx. rewrite Hblock in Hx.
  destruct (join_infix nl (title ++ concat (map block before)) lines
              ([[]] ++ concat (map block after))) as (p1 & q1 & E);
    [done..|].
  rewrite <- !app_assoc in Hx. rewrite <- !app_assoc in E. rewrite E in Hx.
  assert (p1 ++ join nl lines ++ nl ++ q1
          ∈ List.filter nonempty parts) as Hx'.
  { apply list_elem_of_In, filter_In. split; [by apply list_elem_of_In|].
    destruct Hclean as [(c & t & -> & _) _]. by destruct p1. }
  destruct (join_elem nl _ _ Hx') as (p2 & q2 & Ej).
  unfold assemble.
  apply (strip_keeps_line (join nl lines) _ (p2 ++ p1) (q1 ++ q2));
    [done|].
  rewrite Ej. by rewrite <- !app_assoc.
Qed.

(** C5: whenever the rendering returns, every role of the experience and
    every project has in the output its heading followed by a list that is
    never empty, each line of it a list item, and then a line end; and for
    a role or project whose bullets the tag filter all rejects (or that
    has no bullet) this list is the placeholder line alone. *)
Theorem all_rejected_placeholder data include exclude mode out :
  build_md data include exclude mode = Ok out ->
  (forall role,
     role ∈ items_of (field data (lit "experience")) ->
     exists items,
       items ≠ []
       /\ Forall (fun line => exists t, line = lit "- " ++ t) items
       /\ (exists p q,
             out = p ++ join nl (role_heading role ++ items) ++ nl ++ q)
       /\ (Forall (rejected include exclude mode)
             (items_of (field role (lit "bullets"))) ->
           items = [placeholder]))
  /\ (forall project,
        project ∈ items_of (field data (lit "projects")) ->
        exists items,
          items ≠ []
          /\ Forall (fun line => exists t, line = lit "- " ++ t) items
          /\ (exists p q,
                out = p ++ join nl (project_heading project ++ items) ++ nl
                      ++ q)
          /\ (Forall (rejected include exclude mode)
                (items_of (field project (lit "bullets"))) ->
              items = [placeholder])).
Proof.
  unfold build_md. intros E.
  bind_step E h Hh. bind_step E s Hs. bind_step E k Hk.
  bind_step E x Hx. bind_step E p Hp. bind_step E e He.
  apply Ok_inj in E as <-.
  assert (forall entry,
            Forall (rejected include exclude mode)
              (items_of (field entry (lit "bullets"))) ->
            kept_lines (entry_survivors include exclude mode entry)
            = [placeholder]) as Hrej.
  { intros entry Hall. unfold entry_survivors.
    assert (List.filter (survives include exclude mode)
              (items_of (field entry (lit "bullets"))) = []) as ->; [|done].
    induction Hall as [|b bs Hb _ IH]; [done|].
    rewrite filter_cons_eq, not_survives by (by left). exact IH. }
  split.
  - intros role Hin.
    exists (kept_lines (entry_survivors include exclude mode role)).
    destruct (kept_lines_bullets (entry_survivors include exclude mode role))
      as [Hne Hitems].
    split; [done|]. split; [done|]. split; [|apply Hrej].
    apply render_experience_blocks in Hx.
    destruct (items_of (field data (lit "experience"))) as [|r0 roles] eqn:Er;
      [by apply elem_of_nil in Hin|].
    apply (block_in_output (role_block include exclude mode)
             [lit "## Professional Experience"; []; lit "----"; nl]
             (r0 :: roles) role
             (role_heading role
              ++ kept_lines (entry_survivors include exclude mode role))
             x [h; s; k; x; p; e]).
    + exact Hin.
    + unfold role_block. by rewrite <- app_assoc.
    + done.
    + apply (block_text_clean include exclude mode role).
    + exact Hx.
    + do 3 apply list_elem_of_further. apply list_elem_of_here.
  - intros project Hin.
    exists (kept_lines (entry_survivors include exclude mode project)).
    destruct (kept_lines_bullets (entry_survivors include exclude mode project))
      as [Hne Hitems].
    split; [done|]. split; [done|]. split; [|apply Hrej].
    apply render_projects_blocks in Hp.
    destruct (items_of (field data (lit "projects"))) as [|r0 ps] eqn:Er;
      [by apply elem_of_nil in Hin|].
    apply (block_in_output (project_block include exclude mode)
             [lit "## Projects"; []; lit "----"; nl]
             (r0 :: ps) project
             (project_heading project
              ++ kept_lines (entry_survivors include exclude mode project))
             p [h; s; k; x; p; e]).
    + exact Hin.
    + unfold project_block. by rewrite <- app_assoc.
    + done.
    + apply (block_text_clean include exclude mode project).
    + exact Hp.
    + do 4 apply list_elem_of_further. apply list_elem_of_here.
Qed.

End Blocks.

(** C5 on the sample resume under include = {java}: the bullet of the
    project has no tags, so the project shows the placeholder line. *)
Lemma all_rejected_placeholder_witness :
  exists p q,
    sample_java_out
    = p ++ join nl (project_heading (py:=ascii_builtins) engine ++ [placeholder])
        ++ nl ++ q.
Proof.
  assert (build_md (py:=ascii_builtins) sample {[lit "java"]} ∅ (lit "any")
          = Ok sample_java_out) as Hb by (vm_compute; reflexivity).
  destruct (all_rejected_placeholder (py:=ascii_builtins) _ _ _ _ _ Hb)
    as [_ Hp].
  destruct (Hp engine) as (items & _ & _ & Hout & Hrej).
  { apply list_elem_of_here. }
  rewrite Hrej in Hout; [exact Hout|].
  repeat constructor.
  eexists; split; [reflexivity|vm_compute; reflexivity].
Defined.

(** ** Documents of the expected shape render *)

Section Total.
Context {py : Builtins}.
Implicit Types (include exclude : gset pystr) (mode : pystr).

Lemma bullet_included_returns tags include exclude mode :
  mode = lit "any" \/ mode = lit "all" ->
  exists b, bullet_included tags include exclude mode = Ok b.
Proof.
  intros Hmode. unfold bullet_included.
  destruct (_ && _); [eauto|].
  destruct (bool_decide (include = ∅)); [eauto|].
  destruct (bool_decide (mode = lit "any")) eqn:Eany; [eauto|].
  destruct Hmode as [->| ->].
  - by rewrite bool_decide_eq_true_2 in Eany.
  - rewrite bool_decide_eq_true_2 by done. eauto.
Qed.

Lemma seq_of_items ok v :
  seq_of ok v = true ->
  exists l, iter_items (or_empty v) = Ok l /\ forallb ok l = true.
Proof.
  unfold seq_of, or_empty. destruct (truthy v) eqn:Et; simpl.
  - destruct v; try discriminate. eauto.
  - exists []. by split.
Qed.

Lemma shows_md_text v : shows v = true -> exists t, md_text v = Ok t.
Proof.
  unfold shows, md_text. destruct (py_str v); [|discriminate].
  rewrite bind_ok. eauto.
Qed.

Lemma keep_bullets_total bullets include exclude mode kept :
  mode = lit "any" \/ mode = lit "all" ->
  forallb well_formed_bullet bullets = true ->
  exists r, keep_bullets bullets include exclude mode kept = Ok r.
Proof.
  intros Hmode. revert kept.
  induction bullets as [|b bullets IH]; intros kept Hall; [by eexists|].
  apply andb_prop in Hall as [Hb Hall].
  apply andb_prop in Hb as [Hb Hg]. apply andb_prop in Hb as [Hb Ht].
  destruct b as [| | | | | |m]; try discriminate Hb.
  rewrite keep_bullets_cons.
  destruct (shows_md_text _ Ht) as (text & ->). rewrite bind_ok.
  unfold tags_ok in Hg.
  destruct (norm_tags _) as [tags|]; [|discriminate Hg]. rewrite bind_ok.
  destruct (nonempty text).
  - destruct (bullet_included_returns tags include exclude mode Hmode)
      as (keep & ->).
    rewrite bind_ok. by apply IH.
  - rewrite bind_ok. by apply IH.
Qed.

Lemma experience_entry_total role include exclude mode :
  mode = lit "any" \/ mode = lit "all" ->
  well_formed_role role = true ->
  exists lines, experience_entry role include exclude mode = Ok lines.
Proof.
  intros Hmode Hwf. unfold well_formed_role in Hwf.
  apply andb_prop in Hwf as [Hwf Hb]. apply andb_prop in Hwf as [Hwf H4].
  apply andb_prop in Hwf as [Hwf H3]. apply andb_prop in Hwf as [Hwf H2].
  apply andb_prop in Hwf as [Hd H1].
  destruct role as [| | | | | |m]; try discriminate Hd.
  destruct (seq_of_items _ _ Hb) as (l & Hit & Hl).
  destruct (keep_bullets_total l include exclude mode [] Hmode Hl) as (r & Hr).
  destruct (shows_md_text _ H1) as (t1 & E1).
  destruct (shows_md_text _ H2) as (t2 & E2).
  destruct (shows_md_text _ H3) as (t3 & E3).
  destruct (shows_md_text _ H4) as (t4 & E4).
  unfold experience_entry, dict_get_or, dict_get.
  unfold field in Hit. unfold field_or in E1, E2, E3, E4.
  rewrite bind_ok, E1, !bind_ok, E2, !bind_ok, E3, !bind_ok, E4, !bind_ok.
  rewrite Hit, bind_ok, Hr, bind_ok. eauto.
Qed.

Lemma project_entry_total p include exclude mode :
  mode = lit "any" \/ mode = lit "all" ->
  well_formed_project p = true ->
  exists lines, project_entry p include exclude mode = Ok lines.
Proof.
  intros Hmode Hwf. unfold well_formed_project in Hwf.
  apply andb_prop in Hwf as [Hwf Hb]. apply andb_prop in Hwf as [Hwf H2].
  apply andb_prop in Hwf as [Hd H1].
  destruct p as [| | | | | |m]; try discriminate Hd.
  destruct (seq_of_items _ _ Hb) as (l & Hit & Hl).
  destruct (keep_bullets_total l include exclude mode [] Hmode Hl) as (r & Hr).
  destruct (shows_md_text _ H1) as (t1 & E1).
  destruct (shows_md_text _ H2) as (t2 & E2).
  unfold project_entry, dict_get_or, dict_get.
  unfold field in Hit. unfold field_or in E1, E2.
  rewrite bind_ok, E1, !bind_ok, E2, !bind_ok.
  rewrite Hit, bind_ok, Hr, bind_ok. eauto.
Qed.

Lemma experience_loop_total roles include exclude mode out :
  mode = lit "any" \/ mode = lit "all" ->
  forallb well_formed_role roles = true ->
  exists out', experience_loop roles include exclude mode out = Ok out'.
Proof.
  intros Hmode. revert out.
  induction roles as [|role roles IH]; intros out Hall; [by eexists|].
  apply andb_prop in Hall as [Hr Hall].
  destruct (experience_entry_total role include exclude mode Hmode Hr)
    as (lines & Hl).
  rewrite experience_loop_cons, Hl, bind_ok. by apply IH.
Qed.

Lemma projects_loop_total projects include exclude mode out :
  mode = lit "any" \/ mode = lit "all" ->
  forallb well_formed_project projects = true ->
  exists out', projects_loop projects include exclude mode out = Ok out'.
Proof.
  intros Hmode. revert out.
  induction projects as [|p projects IH]; intros out Hall; [by eexists|].
  apply andb_prop in Hall as [Hr Hall].
  destruct (project_entry_total p include exclude mode Hmode Hr)
    as (lines & Hl).
  rewrite projects_loop_cons, Hl, bind_ok. by apply IH.
Qed.

Lemma skills_loop_cons s skills lines :
  skills_loop (s :: skills) lines
  = (dict_get s (lit "header") ≫= fun h =>
     md_escape h ≫= fun header =>
     dict_get s (lit "skill") ≫= fun k =>
     md_escape k ≫= fun skill =>
     md_text (YStr header) ≫= fun h2 =>
     md_text (YStr skill) ≫= fun k2 =>
     skills_loop skills (lines ++ [lit "- **" ++ h2 ++ lit "** " ++ k2])).
Proof. reflexivity. Qed.

Lemma md_text_str s : md_text (YStr s) = Ok (strip (replace_crlf s)).
Proof. reflexivity. Qed.

Lemma education_loop_cons e edu out :
  education_loop (e :: edu) out
  = (dict_get_or e (lit "school") (YStr []) ≫= fun s =>
     md_text s ≫= fun school =>
     dict_get_or e (lit "detail") (YStr []) ≫= fun d =>
     md_text d ≫= fun detail =>
     dict_get_or e (lit "year") (YStr []) ≫= fun y =>
     md_text y ≫= fun year =>
     education_loop edu
       (out ++ [lit "- "
                ++ join (lit ", ")
                     (List.filter nonempty [school; detail; year])])).
Proof. reflexivity. Qed.

Lemma contact_loop_step data k keys bits :
  contact_loop data (k :: keys) bits
  = (dict_get data k ≫= fun v =>
     if truthy v
     then md_text v ≫= fun t => contact_loop data keys (bits ++ [t])
     else contact_loop data keys bits).
Proof. reflexivity. Qed.

Lemma skills_loop_total skills lines :
  forallb well_formed_skill skills = true ->
  exists lines', skills_loop skills lines = Ok lines'.
Proof.
  revert lines. induction skills as [|s skills IH]; intros lines Hall;
    [by eexists|].
  apply andb_prop in Hall as [Hs Hall]. apply andb_prop in Hs as [Hh Hk].
  destruct s as [| | | | | |m]; try discriminate Hh.
  unfold field in Hh, Hk. rewrite skills_loop_cons. unfold dict_get.
  destruct (default YNone (m !! lit "header")); try discriminate Hh.
  destruct (default YNone (m !! lit "skill")); try discriminate Hk.
  unfold md_escape. rewrite !bind_ok, !md_text_str, !bind_ok. by apply IH.
Qed.

Lemma education_loop_total edu out :
  forallb well_formed_school edu = true ->
  exists out', education_loop edu out = Ok out'.
Proof.
  revert out. induction edu as [|e edu IH]; intros out Hall; [by eexists|].
  apply andb_prop in Hall as [He Hall]. unfold well_formed_school in He.
  apply andb_prop in He as [He H3]. apply andb_prop in He as [He H2].
  apply andb_prop in He as [Hd H1].
  destruct e as [| | | | | |m]; try discriminate Hd.
  destruct (shows_md_text _ H1) as (t1 & E1).
  destruct (shows_md_text _ H2) as (t2 & E2).
  destruct (shows_md_text _ H3) as (t3 & E3).
  unfold field_or in E1, E2, E3.
  rewrite education_loop_cons. unfold dict_get_or.
  rewrite bind_ok, E1, !bind_ok, E2, !bind_ok, E3, !bind_ok. by apply IH.
Qed.

Lemma contact_loop_total m keys bits :
  forallb (fun k => well_formed_contact (field (YDict m) k)) keys = true ->
  exists bits', contact_loop (YDict m) keys bits = Ok bits'.
Proof.
  revert bits. induction keys as [|k keys IH]; intros bits Hall; [by eexists|].
  apply andb_prop in Hall as [Hk Hall].
  rewrite contact_loop_step. unfold dict_get. rewrite bind_ok.
  unfold well_formed_contact, field in Hk.
  destruct (truthy (default YNone (m !! k))); [|by apply IH].
  destruct (shows_md_text _ Hk) as (t & ->). rewrite bind_ok. by apply IH.
Qed.

Example sample_well_formed : well_formed (py:=ascii_builtins) sample = true.
Proof. vm_compute. reflexivity. Qed.

(** A document of the expected shape renders, in the two modes and under
    every filter: [build_md] returns. *)
Theorem build_md_total data include exclude mode :
  mode = lit "any" \/ mode = lit "all" ->
  well_formed data = true ->
  exists out, build_md data include exclude mode = Ok out.
Proof.
  intros Hmode Hwf. destruct data as [| | | | | |m]; try discriminate Hwf.
  unfold well_formed in Hwf.
  apply andb_prop in Hwf as [Hwf Hedu]. apply andb_prop in Hwf as [Hwf Hproj].
  apply andb_prop in Hwf as [Hwf Hexp]. apply andb_prop in Hwf as [Hwf Hskills].
  apply andb_prop in Hwf as [Hwf Hsum]. apply andb_prop in Hwf as [Hwf Hemail].
  apply andb_prop in Hwf as [Hwf Hphone]. apply andb_prop in Hwf as [Hwf Hloc].
  assert (exists h, render_header (YDict m) = Ok h) as (h & Hh).
  { unfold render_header, dict_get_or. rewrite bind_ok.
    destruct (contact_loop_total m [lit "location"; lit "phone"; lit "email"] [])
      as (bits & Hbits).
    { cbn [forallb]. by rewrite Hloc, Hphone, Hemail. }
    destruct (m !! lit "name") as [v|]; simpl default.
    - destruct v; try discriminate Hwf.
      unfold md_escape. rewrite bind_ok, Hbits, bind_ok. eauto.
    - unfold md_escape. rewrite bind_ok, Hbits, bind_ok. eauto. }
  assert (exists s, render_summary (YDict m) = Ok s) as (s & Hs).
  { unfold render_summary, dict_get. rewrite bind_ok. unfold field in Hsum.
    destruct (truthy (default YNone (m !! lit "summary")));
      cbn [negb orb] in *; [|eauto].
    destruct (default YNone (m !! lit "summary")); try discriminate Hsum.
    unfold md_escape. rewrite bind_ok. eauto. }
  assert (exists k, render_skills (YDict m) = Ok k) as (k & Hk).
  { unfold render_skills, dict_get. rewrite bind_ok.
    destruct (truthy (or_empty _)); simpl negb; cbv iota; [|eauto].
    destruct (seq_of_items well_formed_skill (field (YDict m) (lit "skills")))
      as (l & Hit & Hl); [done|].
    unfold field in Hit. rewrite Hit, bind_ok.
    destruct (skills_loop_total l [lit "## Technical Skills"; []; lit "----"; nl]
                Hl) as (lines & ->).
    rewrite bind_ok. eauto. }
  assert (exists x, render_experience (YDict m) include exclude mode = Ok x)
    as (x & Hx).
  { unfold render_experience, dict_get. rewrite bind_ok.
    destruct (truthy (or_empty _)); simpl negb; cbv iota; [|eauto].
    destruct (seq_of_items well_formed_role
                (field (YDict m) (lit "experience"))) as (l & Hit & Hl); [done|].
    unfold field in Hit. rewrite Hit, bind_ok.
    destruct (experience_loop_total l include exclude mode
                [lit "## Professional Experience"; []; lit "----"; nl]
                Hmode Hl) as (out & ->).
    rewrite bind_ok. eauto. }
  assert (exists p, render_projects (YDict m) include exclude mode = Ok p)
    as (p & Hp).
  { unfold render_projects, dict_get. rewrite bind_ok.
    destruct (truthy (or_empty _)); simpl negb; cbv iota; [|eauto].
    destruct (seq_of_items well_formed_project
                (field (YDict m) (lit "projects"))) as (l & Hit & Hl); [done|].
    unfold field in Hit. rewrite Hit, bind_ok.
    destruct (projects_loop_total l include exclude mode
                [lit "## Projects"; []; lit "----"; nl] Hmode Hl) as (out & ->).
    rewrite bind_ok. eauto. }
  assert (exists e, render_education (YDict m) = Ok e) as (e & He).
  { unfold render_education, dict_get. rewrite bind_ok.
    destruct (truthy (or_empty _)); simpl negb; cbv iota; [|eauto].
    destruct (seq_of_items well_formed_school
                (field (YDict m) (lit "education"))) as (l & Hit & Hl); [done|].
    unfold field in Hit. rewrite Hit, bind_ok.
    destruct (education_loop_total l [lit "## Education"; []; lit "----"; nl] Hl)
      as (out & ->).
    rewrite bind_ok. eauto. }
  unfold build_md. rewrite Hh, bind_ok, Hs, bind_ok, Hk, bind_ok, Hx, bind_ok,
    Hp, bind_ok, He, bind_ok. eauto.
Qed.

End Total.

(** ** More on the tag filter *)

Section FilterAlgebra.
Context {py : Builtins}.
Implicit Types (tags include exclude : gset pystr) (mode : pystr).

Lemma meets_iff tags (X : gset pystr) : tags ∩ X ≠ ∅ <-> exists x, x ∈ tags /\ x ∈ X.
Proof.
  split.
  - intros Hne. apply set_choose_L in Hne as (x & Hx).
    apply elem_of_intersection in Hx. eauto.
  - intros (x & Ht & HX) E.
    assert (x ∈ tags ∩ X) as Hin by (by apply elem_of_intersection).
    rewrite E in Hin. by apply not_elem_of_empty in Hin.
Qed.

(** A bullet that mode [all] accepts is accepted by mode [any] too. *)
Theorem bullet_included_all_implies_any tags include exclude :
  bullet_included tags include exclude (lit "all") = Ok true ->
  bullet_included tags include exclude (lit "any") = Ok true.
Proof.
  unfold bullet_included. destruct (_ && _); [done|].
  destruct (bool_decide (include = ∅)) eqn:Ei; [done|].
  apply bool_decide_eq_false in Ei.
  rewrite (bool_decide_eq_false_2 (lit "all" = lit "any")) by discriminate.
  rewrite !bool_decide_eq_true_2 by done.
  intros E. apply Ok_inj, bool_decide_eq_true in E.
  f_equal. apply bool_decide_eq_true, meets_iff.
  apply set_choose_L in Ei as (x & Hx). exists x. split; [by apply E|done].
Qed.

(** More tags to exclude never bring a rejected bullet back. *)
Theorem bullet_included_more_excluded tags include exclude exclude' mode :
  bullet_included tags include exclude mode = Ok false ->
  bullet_included tags include (exclude ∪ exclude') mode = Ok false.
Proof.
  unfold bullet_included.
  destruct (bool_decide (exclude ∪ exclude' ≠ ∅)
            && bool_decide (tags ∩ (exclude ∪ exclude') ≠ ∅)) eqn:E'; [done|].
  destruct (bool_decide (exclude ≠ ∅) && bool_decide (tags ∩ exclude ≠ ∅))
    eqn:E; [|done].
  exfalso. apply andb_prop in E as [_ E]. apply bool_decide_eq_true in E.
  apply meets_iff in E as (x & Ht & Hx).
  apply andb_false_iff in E' as [E'|E']; apply bool_decide_eq_false in E';
    apply E'.
  - intros E0. assert (x ∈ exclude ∪ exclude') as Hin
      by (apply elem_of_union; by left).
    rewrite E0 in Hin. by apply not_elem_of_empty in Hin.
  - apply meets_iff. exists x. split; [done|]. apply elem_of_union. by left.
Qed.

(** Only the tags that the filter names count: the other tags of a bullet
    change nothing. *)
Theorem bullet_included_relevant_tags tags include exclude mode :
  bullet_included tags include exclude mode
  = bullet_included (tags ∩ (include ∪ exclude)) include exclude mode.
Proof.
  unfold bullet_included.
  assert (bool_decide (tags ∩ exclude ≠ ∅)
          = bool_decide (tags ∩ (include ∪ exclude) ∩ exclude ≠ ∅)) as ->.
  { apply bool_decide_ext. rewrite !meets_iff.
    split; intros (x & Hx & He); exists x; split; try done.
    - apply elem_of_intersection. split; [done|]. apply elem_of_union. by right.
    - by apply elem_of_intersection in Hx as [Hx _]. }
  assert (bool_decide (tags ∩ include ≠ ∅)
          = bool_decide (tags ∩ (include ∪ exclude) ∩ include ≠ ∅)) as ->.
  { apply bool_decide_ext. rewrite !meets_iff.
    split; intros (x & Hx & He); exists x; split; try done.
    - apply elem_of_intersection. split; [done|]. apply elem_of_union. by left.
    - by apply elem_of_intersection in Hx as [Hx _]. }
  assert (bool_decide (include ⊆ tags)
          = bool_decide (include ⊆ tags ∩ (include ∪ exclude))) as ->.
  { apply bool_decide_ext. split; intros Hsub x Hx.
    - apply elem_of_intersection. split; [by apply Hsub|].
      apply elem_of_union. by left.
    - by apply Hsub, elem_of_intersection in Hx as [Hx _]. }
  reflexivity.
Qed.

(** A bullet without tags is never excluded, and is shown only when there
    is no include filter. *)
Theorem untagged_bullet (b : gmap pystr yaml) include exclude mode :
  mode = lit "any" \/ mode = lit "all" ->
  b !! lit "tags" = None ->
  bullet_included (tags_of (YDict b)) include exclude mode
  = Ok (bool_decide (include = ∅)).
Proof.
  intros Hmode Hb. unfold tags_of, field. rewrite Hb. simpl default.
  change (norm_tags YNone) with (@Ok (gset pystr) ∅). cbv iota.
  unfold bullet_included.
  rewrite (bool_decide_eq_false_2 (∅ ∩ exclude ≠ ∅)), andb_false_r
    by (rewrite intersection_empty_l_L; tauto).
  destruct (bool_decide (include = ∅)) eqn:Ei; [done|].
  apply bool_decide_eq_false in Ei.
  destruct Hmode as [->| ->].
  - rewrite bool_decide_eq_true_2 by done. f_equal.
    apply bool_decide_eq_false. rewrite intersection_empty_l_L. tauto.
  - rewrite (bool_decide_eq_false_2 (lit "all" = lit "any")) by discriminate.
    rewrite bool_decide_eq_true_2 by done. f_equal.
    apply bool_decide_eq_false. intros Hsub.
    apply set_choose_L in Ei as (x & Hx).
    by apply Hsub, not_elem_of_empty in Hx.
Qed.

(** In mode [any] a larger include set keeps what a smaller one, not
    empty, keeps; in mode [all] a smaller include set keeps what a larger
    one keeps. *)
Theorem bullet_included_include_monotone tags include include' exclude :
  include ⊆ include' ->
  (include ≠ ∅ ->
   bullet_included tags include exclude (lit "any") = Ok true ->
   bullet_included tags include' exclude (lit "any") = Ok true)
  /\ (bullet_included tags include' exclude (lit "all") = Ok true ->
      bullet_included tags include exclude (lit "all") = Ok true).
Proof.
  intros Hsub. unfold bullet_included.
  destruct (_ && _); [split; [done|discriminate]|].
  rewrite (bool_decide_eq_false_2 (lit "all" = lit "any")) by discriminate.
  rewrite !(bool_decide_eq_true_2 (lit _ = lit _)) by done.
  split.
  - intros Hne. rewrite (bool_decide_eq_false_2 (include = ∅)) by done.
    intros E. apply Ok_inj, bool_decide_eq_true, meets_iff in E
      as (x & Ht & Hx).
    assert (include' ≠ ∅) as Hne'.
    { intros E0. apply Hsub in Hx. rewrite E0 in Hx.
      by apply not_elem_of_empty in Hx. }
    rewrite (bool_decide_eq_false_2 (include' = ∅)) by done.
    f_equal. apply bool_decide_eq_true, meets_iff. exists x. split; [done|].
    by apply Hsub.
  - destruct (bool_decide (include = ∅)); [done|].
    destruct (bool_decide (include' = ∅)) eqn:E'.
    + apply bool_decide_eq_true in E'. intros _. f_equal.
      apply bool_decide_eq_true. intros x Hx. apply Hsub in Hx.
      rewrite E' in Hx. by apply not_elem_of_empty in Hx.
    + intros E. apply Ok_inj, bool_decide_eq_true in E. f_equal.
      apply bool_decide_eq_true. intros x Hx. by apply E, Hsub.
Qed.

(** A single tag given as a string is the same as a sequence of that one
    tag; and the tags of a sequence do not depend on order or repeats. *)
Theorem norm_tags_as_set (s : pystr) (l l' : list yaml) :
  (forall t, t ∈ l <-> t ∈ l') ->
  norm_tags (YStr s) = norm_tags (YList [YStr s])
  /\ norm_tags (YList l) = norm_tags (YList l').
Proof.
  intros Hsame. split.
  - unfold norm_tags. rewrite tag_texts_cons. cbn [py_str tag_texts].
    rewrite !bind_ok. cbn [list_to_set]. by rewrite union_empty_r_L.
  - unfold norm_tags.
    destruct (tag_texts l) as [out|err] eqn:E;
      destruct (tag_texts l') as [out'|err'] eqn:E'.
    + rewrite !bind_ok. f_equal. apply set_eq. intros x.
      rewrite !elem_of_list_to_set, (tag_texts_elem _ _ _ E),
        (tag_texts_elem _ _ _ E').
      split; intros (t & s0 & Ht & Hs & ->); exists t, s0; split; try done;
        by apply Hsame.
    + exfalso. eapply (tag_texts_all_or_none l' l); [|done..].
      intros t. apply Hsame.
    + exfalso. eapply (tag_texts_all_or_none l l'); [|done..].
      intros t. apply Hsame.
    + apply tag_texts_raises in E as (t & _ & Ht).
      apply tag_texts_raises in E' as (t' & _ & Ht').
      apply py_str_error in Ht as ->. by apply py_str_error in Ht' as ->.
Qed.

End FilterAlgebra.

(** ** The bullets a filter keeps *)

Section Survivors.
Context {py : Builtins}.
Implicit Types (include exclude : gset pystr) (mode : pystr).

Lemma strip_clean u : nonempty (strip u) = true -> clean (strip u).
Proof.
  intros Hne. split.
  - destruct (strip u) as [|c t] eqn:E; [discriminate|].
    exists c, t. split; [done|]. by eapply strip_head.
  - intros t d E. by eapply strip_last.
Qed.

Lemma survivors_clean include exclude mode bullets :
  Forall clean
    (map bullet_text (List.filter (survives include exclude mode) bullets)).
Proof.
  apply List.Forall_forall. intros t Ht.
  apply in_map_iff in Ht as (b & <- & Hb).
  apply filter_In in Hb as [_ Hb]. apply andb_prop in Hb as [Hb _].
  destruct (text_of_strip (field_or b (lit "text") (YStr []))) as (u & Hu).
  unfold bullet_text in *. rewrite Hu in *. by apply strip_clean.
Qed.

(** The loop over the bullets is a filter: the bullets kept are the texts,
    in the order of the document, of the bullets whose text is not empty
    and whose tags the filter accepts; each text kept is trimmed and not
    empty. None is added, repeated or moved. *)
Theorem kept_bullets_are_survivors bullets include exclude mode kept :
  keep_bullets bullets include exclude mode [] = Ok kept ->
  kept = map bullet_text (List.filter (survives include exclude mode) bullets)
  /\ sublist kept (map bullet_text bullets)
  /\ Forall clean kept.
Proof.
  intros E. apply keep_bullets_filter in E as ->. simpl app.
  split; [done|]. split; [|apply survivors_clean].
  induction bullets as [|b bullets IH]; [done|].
  rewrite filter_cons_eq, map_cons.
  destruct (survives _ _ _ b).
  - rewrite map_cons. by apply sublist_skip.
  - by apply sublist_cons.
Qed.

(** The filter reaches the rendering only through [bullet_included]. *)
Lemma keep_bullets_ext bullets include exclude mode include' exclude' mode'
    kept :
  (forall tags, bullet_included tags include exclude mode
                = bullet_included tags include' exclude' mode') ->
  keep_bullets bullets include exclude mode kept
  = keep_bullets bullets include' exclude' mode' kept.
Proof.
  intros Hsame. revert kept.
  induction bullets as [|b bullets IH]; intros kept; [done|].
  destruct b; try reflexivity.
  rewrite !keep_bullets_cons. do 2 (apply bind_ext; intros ?).
  rewrite Hsame. apply bind_ext. intros keep. apply IH.
Qed.

Lemma build_md_ext data include exclude mode include' exclude' mode' :
  (forall tags, bullet_included tags include exclude mode
                = bullet_included tags include' exclude' mode') ->
  build_md data include exclude mode = build_md data include' exclude' mode'.
Proof.
  intros Hsame.
  assert (forall entry, experience_entry entry include exclude mode
                        = experience_entry entry include' exclude' mode') as He.
  { intros entry. unfold experience_entry.
    do 9 (apply bind_ext; intros ?). apply bind_ext. intros bullets.
    by rewrite (keep_bullets_ext _ _ _ _ _ _ _ _ Hsame). }
  assert (forall entry, project_entry entry include exclude mode
                        = project_entry entry include' exclude' mode') as Hp.
  { intros entry. unfold project_entry.
    do 5 (apply bind_ext; intros ?). apply bind_ext. intros bullets.
    by rewrite (keep_bullets_ext _ _ _ _ _ _ _ _ Hsame). }
  assert (forall roles out, experience_loop roles include exclude mode out
                            = experience_loop roles include' exclude' mode' out)
    as Hel.
  { induction roles as [|role roles IH]; intros out; [done|].
    rewrite !experience_loop_cons, He. apply bind_ext. intros lines. apply IH. }
  assert (forall ps out, projects_loop ps include exclude mode out
                         = projects_loop ps include' exclude' mode' out) as Hpl.
  { induction ps as [|p ps IH]; intros out; [done|].
    rewrite !projects_loop_cons, Hp. apply bind_ext. intros lines. apply IH. }
  unfold build_md. do 3 (apply bind_ext; intros ?).
  assert (render_experience data include exclude mode
          = render_experience data include' exclude' mode') as ->.
  { unfold render_experience. apply bind_ext. intros v.
    destruct (negb _); [done|]. apply bind_ext. intros roles.
    by rewrite Hel. }
  apply bind_ext. intros x.
  assert (render_projects data include exclude mode
          = render_projects data include' exclude' mode') as ->.
  { unfold render_projects. apply bind_ext. intros v.
    destruct (negb _); [done|]. apply bind_ext. intros ps.
    by rewrite Hpl. }
  reflexivity.
Qed.

(** Without an include filter the mode plays no part: the rendering is
    the same for every mode, also for a mode that is neither [any] nor
    [all]. *)
Theorem build_md_mode_irrelevant data exclude mode mode' :
  build_md data ∅ exclude mode = build_md data ∅ exclude mode'.
Proof.
  apply build_md_ext. intros tags. unfold bullet_included.
  by rewrite (bool_decide_eq_true_2 (∅ = ∅)).
Qed.

(** With a single include tag the two modes render the same. *)
Theorem build_md_single_include data (tag : pystr) exclude :
  build_md data {[ tag ]} exclude (lit "any")
  = build_md data {[ tag ]} exclude (lit "all").
Proof.
  apply build_md_ext. intros tags. unfold bullet_included.
  destruct (_ && _); [done|]. destruct (bool_decide ({[tag]} = ∅)); [done|].
  rewrite (bool_decide_eq_false_2 (lit "all" = lit "any")) by discriminate.
  rewrite !(bool_decide_eq_true_2 (lit _ = lit _)) by done.
  f_equal. apply bool_decide_ext. rewrite meets_iff. split.
  - intros (x & Ht & Hx) y Hy.
    apply elem_of_singleton in Hx, Hy. by subst.
  - intros Hsub. exists tag. split; [|by apply elem_of_singleton].
    by apply Hsub, elem_of_singleton.
Qed.

End Survivors.

(** ** The exceptions of the rendering *)

Section Exceptions.
Context {py : Builtins}.
Implicit Types (include exclude : gset pystr) (mode : pystr).

Lemma plain_expected include mode err :
  type_or_digits err -> expected_error include mode err.
Proof. intros [->| ->]; [by left|right; by left]. Qed.

Lemma bullet_included_error tags include exclude mode err :
  bullet_included tags include exclude mode = Err err ->
  expected_error include mode err.
Proof.
  unfold bullet_included. destruct (_ && _); [discriminate|].
  destruct (bool_decide (include = ∅)) eqn:Ei; [discriminate|].
  destruct (bool_decide (mode = lit "any")) eqn:Eany; [discriminate|].
  destruct (bool_decide (mode = lit "all")) eqn:Eall; [discriminate|].
  intros E. apply Err_inj in E as <-. right. right.
  apply bool_decide_eq_false in Ei, Eany, Eall. auto.
Qed.

Lemma dict_get_error d k err : dict_get d k = Err err -> type_or_digits err.
Proof. destruct d; try discriminate; intros E; left; by apply Err_inj in E. Qed.

Lemma dict_get_or_error d k dflt err :
  dict_get_or d k dflt = Err err -> type_or_digits err.
Proof. destruct d; try discriminate; intros E; left; by apply Err_inj in E. Qed.

Lemma md_escape_error v err : md_escape v = Err err -> err = BadType.
Proof. destruct v; try discriminate; intros E; by apply Err_inj in E. Qed.

Lemma iter_items_error v err : iter_items v = Err err -> type_or_digits err.
Proof. destruct v; try discriminate; intros E; left; by apply Err_inj in E. Qed.

Lemma md_text_error v err : md_text v = Err err -> type_or_digits err.
Proof.
  unfold md_text. intros E.
  apply bind_err_inv in E as [E|(? & _ & E)]; [|discriminate].
  right. by eapply py_str_error.
Qed.

Lemma norm_tags_raises v err :
  norm_tags v = Err err -> err = ValueError digit_limit_msg.
Proof.
  intros E. destruct v as [| | | | |l|]; try discriminate E;
    unfold norm_tags in E;
    apply bind_err_inv in E as [E|(? & _ & E)]; try discriminate E;
    try (by eapply py_str_error).
  apply tag_texts_raises in E as (t & _ & Ht). by eapply py_str_error.
Qed.

Lemma norm_tags_error v err : norm_tags v = Err err -> type_or_digits err.
Proof. intros E. right. by eapply norm_tags_raises. Qed.

Lemma keep_bullets_error bullets include exclude mode kept err :
  keep_bullets bullets include exclude mode kept = Err err ->
  expected_error include mode err.
Proof.
  revert kept. induction bullets as [|b bullets IH]; intros kept E;
    [discriminate|].
  destruct b as [| | | | | |m]; try (apply Err_inj in E as <-; by left).
  rewrite keep_bullets_cons in E.
  apply bind_err_inv in E as [E|(text & _ & E)];
    [by apply plain_expected, (md_text_error _ _ E)|].
  apply bind_err_inv in E as [E|(tags & _ & E)];
    [by apply plain_expected, (norm_tags_error _ _ E)|].
  apply bind_err_inv in E as [E|(keep & _ & E)]; [|by eapply IH].
  destruct (nonempty _); [|discriminate]. by eapply bullet_included_error.
Qed.

Lemma experience_entry_error role include exclude mode err :
  experience_entry role include exclude mode = Err err ->
  expected_error include mode err.
Proof.
  unfold experience_entry. intros E.
  do 10 (apply bind_err_inv in E as [E|(? & _ & E)];
         [apply plain_expected;
          first [ by eapply dict_get_or_error | by eapply dict_get_error
                | by eapply iter_items_error | by eapply md_text_error ] |]).
  apply bind_err_inv in E as [E|(? & _ & E)]; [|discriminate].
  by eapply keep_bullets_error.
Qed.

Lemma project_entry_error p include exclude mode err :
  project_entry p include exclude mode = Err err ->
  expected_error include mode err.
Proof.
  unfold project_entry. intros E.
  do 6 (apply bind_err_inv in E as [E|(? & _ & E)];
        [apply plain_expected;
         first [ by eapply dict_get_or_error | by eapply dict_get_error
               | by eapply iter_items_error | by eapply md_text_error ] |]).
  apply bind_err_inv in E as [E|(? & _ & E)]; [|discriminate].
  by eapply keep_bullets_error.
Qed.

Lemma experience_loop_error roles include exclude mode out err :
  experience_loop roles include exclude mode out = Err err ->
  expected_error include mode err.
Proof.
  revert out. induction roles as [|role roles IH]; intros out E; [discriminate|].
  rewrite experience_loop_cons in E.
  apply bind_err_inv in E as [E|(lines & _ & E)]; [|by eapply IH].
  by eapply experience_entry_error.
Qed.

Lemma projects_loop_error projects include exclude mode out err :
  projects_loop projects include exclude mode out = Err err ->
  expected_error include mode err.
Proof.
  revert out. induction projects as [|p projects IH]; intros out E;
    [discriminate|].
  rewrite projects_loop_cons in E.
  apply bind_err_inv in E as [E|(lines & _ & E)]; [|by eapply IH].
  by eapply project_entry_error.
Qed.

Lemma skills_loop_error skills lines err :
  skills_loop skills lines = Err err -> err = BadType.
Proof.
  revert lines. induction skills as [|s skills IH]; intros lines E;
    [discriminate|].
  rewrite skills_loop_cons in E.
  apply bind_err_inv in E as [E|(h & _ & E)];
    [destruct s; try discriminate E; by apply Err_inj in E|].
  apply bind_err_inv in E as [E|(header & _ & E)]; [by eapply md_escape_error|].
  apply bind_err_inv in E as [E|(k & _ & E)];
    [destruct s; try discriminate E; by apply Err_inj in E|].
  apply bind_err_inv in E as [E|(skill & _ & E)]; [by eapply md_escape_error|].
  rewrite !md_text_str, !bind_ok in E. by eapply IH.
Qed.

Lemma education_loop_error edu out err :
  education_loop edu out = Err err -> type_or_digits err.
Proof.
  revert out. induction edu as [|e edu IH]; intros out E; [discriminate|].
  rewrite education_loop_cons in E.
  do 6 (apply bind_err_inv in E as [E|(? & _ & E)];
        [first [ by eapply dict_get_or_error | by eapply md_text_error ] |]).
  by eapply IH.
Qed.

Lemma contact_loop_error data keys bits err :
  contact_loop data keys bits = Err err -> type_or_digits err.
Proof.
  revert bits. induction keys as [|k keys IH]; intros bits E; [discriminate|].
  rewrite contact_loop_step in E.
  apply bind_err_inv in E as [E|(v & _ & E)]; [by eapply dict_get_error|].
  destruct (truthy v); [|by eapply IH].
  apply bind_err_inv in E as [E|(t & _ & E)]; [by eapply md_text_error|].
  by eapply IH.
Qed.

Lemma render_header_error data err :
  render_header data = Err err -> type_or_digits err.
Proof.
  unfold render_header. intros E.
  apply bind_err_inv in E as [E|(n & _ & E)]; [by eapply dict_get_or_error|].
  apply bind_err_inv in E as [E|(name & _ & E)];
    [left; by eapply md_escape_error|].
  apply bind_err_inv in E as [E|(bits & _ & E)]; [|discriminate].
  by eapply contact_loop_error.
Qed.

Lemma render_summary_error data err :
  render_summary data = Err err -> err = BadType.
Proof.
  unfold render_summary. intros E.
  apply bind_err_inv in E as [E|(v & _ & E)];
    [destruct data; try discriminate E; by apply Err_inj in E|].
  destruct (negb _); [discriminate|].
  apply bind_err_inv in E as [E|(s & _ & E)]; [|discriminate].
  by eapply md_escape_error.
Qed.

Lemma render_skills_error data err :
  render_skills data = Err err -> err = BadType.
Proof.
  unfold render_skills. intros E.
  apply bind_err_inv in E as [E|(v & _ & E)];
    [destruct data; try discriminate E; by apply Err_inj in E|].
  destruct (negb _); [discriminate|].
  apply bind_err_inv in E as [E|(items & _ & E)];
    [destruct (or_empty v); try discriminate E; by apply Err_inj in E|].
  apply bind_err_inv in E as [E|(lines & _ & E)]; [|discriminate].
  by eapply skills_loop_error.
Qed.

Lemma render_education_error data err :
  render_education data = Err err -> type_or_digits err.
Proof.
  unfold render_education. intros E.
  apply bind_err_inv in E as [E|(v & _ & E)]; [by eapply dict_get_error|].
  destruct (negb _); [discriminate|].
  apply bind_err_inv in E as [E|(items & _ & E)]; [by eapply iter_items_error|].
  apply bind_err_inv in E as [E|(lines & _ & E)]; [|discriminate].
  by eapply education_loop_error.
Qed.

Lemma render_experience_error data include exclude mode err :
  render_experience data include exclude mode = Err err ->
  expected_error include mode err.
Proof.
  unfold render_experience. intros E.
  apply bind_err_inv in E as [E|(v & _ & E)];
    [by apply plain_expected, (dict_get_error _ _ _ E)|].
  destruct (negb _); [discriminate|].
  apply bind_err_inv in E as [E|(items & _ & E)];
    [by apply plain_expected, (iter_items_error _ _ E)|].
  apply bind_err_inv in E as [E|(lines & _ & E)]; [|discriminate].
  by eapply experience_loop_error.
Qed.

Lemma render_projects_error data include exclude mode err :
  render_projects data include exclude mode = Err err ->
  expected_error include mode err.
Proof.
  unfold render_projects. intros E.
  apply bind_err_inv in E as [E|(v & _ & E)];
    [by apply plain_expected, (dict_get_error _ _ _ E)|].
  destruct (negb _); [discriminate|].
  apply bind_err_inv in E as [E|(items & _ & E)];
    [by apply plain_expected, (iter_items_error _ _ E)|].
  apply bind_err_inv in E as [E|(lines & _ & E)]; [|discriminate].
  by eapply projects_loop_error.
Qed.

Lemma build_md_error data include exclude mode err :
  build_md data include exclude mode = Err err ->
  expected_error include mode err.
Proof.
  unfold build_md. intros E.
  apply bind_err_inv in E as [E|(h & _ & E)];
    [by apply (plain_expected include mode), (render_header_error _ _ E)|].
  apply bind_err_inv in E as [E|(s & _ & E)];
    [left; by eapply render_summary_error|].
  apply bind_err_inv in E as [E|(k & _ & E)];
    [left; by eapply render_skills_error|].
  apply bind_err_inv in E as [E|(x & _ & E)];
    [by eapply render_experience_error|].
  apply bind_err_inv in E as [E|(p & _ & E)];
    [by eapply render_projects_error|].
  apply bind_err_inv in E as [E|(e & _ & E)]; [|discriminate].
  by apply (plain_expected include mode), (render_education_error _ _ E).
Qed.

(** When [build_md] raises, it is a type error on the document, the
    [ValueError] of [str()] on an integer beyond the digit limit, or else
    the [ValueError] of a mode that is neither [any] nor [all], and this
    one only under an include filter. *)
Theorem build_md_raises data include exclude mode err :
  build_md data include exclude mode = Err err ->
  err = BadType
  \/ err = ValueError digit_limit_msg
  \/ (err = ValueError (lit "Unknown mode: " ++ mode)
      /\ mode ≠ lit "any" /\ mode ≠ lit "all" /\ include ≠ ∅).
Proof. apply build_md_error. Qed.

End Exceptions.

(** ** Documents that do not render *)

Section Malformed.
Context {py : Builtins}.
Implicit Types (include exclude : gset pystr) (mode : pystr).

(** A document that is not a mapping (an empty file loads as [None]) does
    not render: the first lookup raises. *)
Theorem build_md_not_mapping data include exclude mode :
  is_dict data = false ->
  build_md data include exclude mode = Err BadType.
Proof. intros Hd. destruct data; try discriminate Hd; reflexivity. Qed.

(** A name that is present but is no string, as the null of [name:] with
    nothing after it, does not render, where a missing name does. *)
Theorem name_not_string (m : gmap pystr yaml) v include exclude mode :
  m !! lit "name" = Some v ->
  is_str v = false ->
  render_header (YDict m) = Err BadType
  /\ build_md (YDict m) include exclude mode = Err BadType.
Proof.
  intros Hm Hv.
  assert (render_header (YDict m) = Err BadType) as Hh.
  { unfold render_header, dict_get_or. rewrite bind_ok, Hm.
    destruct v; try discriminate Hv; reflexivity. }
  split; [done|]. unfold build_md. by rewrite Hh.
Qed.

Lemma keep_bullets_str k rest include exclude mode kept :
  keep_bullets (YStr k :: rest) include exclude mode kept = Err BadType.
Proof. reflexivity. Qed.

Lemma iter_not_sequence v :
  truthy v = true -> (forall l, v ≠ YList l) ->
  iter_items (or_empty v) = Err BadType
  \/ exists k rest, iter_items (or_empty v) = Ok (YStr k :: rest).
Proof.
  intros Ht Hv. unfold or_empty. rewrite Ht.
  destruct v as [| | |s| |l|m]; try (by left); try discriminate Ht.
  - destruct s as [|c s]; [discriminate Ht|]. right. by eexists _, _.
  - by destruct (Hv l).
  - right. simpl. destruct (map_to_list m) as [|[k x] rest] eqn:Em.
    + apply map_to_list_empty_iff in Em as ->.
      simpl in Ht. by rewrite map_size_empty in Ht.
    + by eexists _, _.
Qed.

Lemma md_text_shows v :
  md_text v
  = if shows v then Ok (text_of v) else Err (ValueError digit_limit_msg).
Proof.
  unfold shows, text_of, md_text.
  destruct (py_str v) as [t|e] eqn:E; [by rewrite bind_ok|].
  apply py_str_error in E as ->. reflexivity.
Qed.

Lemma norm_tags_tags_ok v :
  norm_tags v
  = if tags_ok v then norm_tags v else Err (ValueError digit_limit_msg).
Proof.
  unfold tags_ok. destruct (norm_tags v) as [tags|e] eqn:E; [done|].
  by apply norm_tags_raises in E as ->.
Qed.

(** The heading of a role, then what follows it. *)
Lemma experience_entry_heading (entry : gmap pystr yaml) include exclude mode :
  experience_entry (YDict entry) include exclude mode
  = if heading_shows (YDict entry) role_keys
    then
      iter_items (or_empty (field (YDict entry) (lit "bullets")))
        ≫= fun bullets =>
      keep_bullets bullets include exclude mode [] ≫= fun kept =>
      Ok (role_heading (YDict entry) ++ kept_lines kept ++ [[]])
    else Err (ValueError digit_limit_msg).
Proof.
  unfold experience_entry, heading_shows, role_keys, role_heading.
  cbn [forallb field_or field dict_get_or dict_get].
  rewrite bind_ok, md_text_shows.
  destruct (shows (default (YStr []) (entry !! lit "company")));
    [|reflexivity].
  rewrite !bind_ok, md_text_shows.
  destruct (shows (default (YStr []) (entry !! lit "title")));
    [|reflexivity].
  rewrite !bind_ok, md_text_shows.
  destruct (shows (default (YStr []) (entry !! lit "location")));
    [|reflexivity].
  rewrite !bind_ok, md_text_shows.
  destruct (shows (default (YStr []) (entry !! lit "dates")));
    [|reflexivity].
  rewrite !bind_ok. reflexivity.
Qed.

Lemma project_entry_heading (entry : gmap pystr yaml) include exclude mode :
  project_entry (YDict entry) include exclude mode
  = if heading_shows (YDict entry) project_keys
    then
      iter_items (or_empty (field (YDict entry) (lit "bullets")))
        ≫= fun bullets =>
      keep_bullets bullets include exclude mode [] ≫= fun kept =>
      Ok (project_heading (YDict entry) ++ kept_lines kept ++ [[]])
    else Err (ValueError digit_limit_msg).
Proof.
  unfold project_entry, heading_shows, project_keys, project_heading.
  cbn [forallb field_or field dict_get_or dict_get].
  rewrite bind_ok, md_text_shows.
  destruct (shows (default (YStr []) (entry !! lit "name")));
    [|reflexivity].
  rewrite !bind_ok, md_text_shows.
  destruct (shows (default (YStr []) (entry !! lit "dates")));
    [|reflexivity].
  rewrite !bind_ok. reflexivity.
Qed.

(** Bullets that are not a sequence, as one string or a mapping, do not
    render. The role or project raises: the [ValueError] of [str()] when
    a field of its heading is an integer beyond the digit limit, since the
    heading is turned into text first, and a type error otherwise. *)
Theorem bullets_not_sequence (entry : gmap pystr yaml) v include exclude mode :
  entry !! lit "bullets" = Some v ->
  truthy v = true ->
  (forall l, v ≠ YList l) ->
  experience_entry (YDict entry) include exclude mode
  = Err (if heading_shows (YDict entry) role_keys then BadType
         else ValueError digit_limit_msg)
  /\ project_entry (YDict entry) include exclude mode
     = Err (if heading_shows (YDict entry) project_keys then BadType
            else ValueError digit_limit_msg).
Proof.
  intros Hentry Ht Hv.
  assert (forall A (f : list pystr -> result A),
            (iter_items (or_empty (field (YDict entry) (lit "bullets")))
               ≫= fun bullets =>
             keep_bullets bullets include exclude mode [] ≫= f)
            = Err BadType) as Hraise.
  { intros A f. unfold field. rewrite Hentry. simpl default.
    destruct (iter_not_sequence v Ht Hv) as [-> |(k & rest & ->)]; [done|].
    by rewrite bind_ok, keep_bullets_str. }
  rewrite experience_entry_heading, project_entry_heading, !Hraise.
  split; by destruct (heading_shows _ _).
Qed.

Lemma keep_bullets_not_mapping before b after include exclude mode kept :
  mode = lit "any" \/ mode = lit "all" ->
  forallb is_dict before = true ->
  is_dict b = false ->
  keep_bullets (before ++ b :: after) include exclude mode kept
  = Err (if forallb well_formed_bullet before then BadType
         else ValueError digit_limit_msg).
Proof.
  intros Hmode Hbefore Hb. revert kept.
  induction before as [|a before IH]; intros kept; simpl app.
  - by destruct b.
  - apply andb_prop in Hbefore as [Ha Hbefore].
    destruct a as [| | | | | |m]; try discriminate Ha.
    rewrite keep_bullets_cons. cbn [forallb]. unfold well_formed_bullet at 1.
    cbn [is_dict andb]. rewrite md_text_shows.
    destruct (shows (field_or (YDict m) (lit "text") (YStr [])));
      [|reflexivity].
    rewrite bind_ok, norm_tags_tags_ok.
    destruct (tags_ok (field (YDict m) (lit "tags"))) eqn:Hok; [|reflexivity].
    unfold tags_ok in Hok.
    destruct (norm_tags (field (YDict m) (lit "tags"))) as [tags|]
      eqn:Htags; [|discriminate Hok].
    rewrite bind_ok. cbn [andb]. destruct (nonempty _).
    + destruct (bullet_included_returns tags include exclude mode Hmode)
        as (keep & ->).
      rewrite bind_ok. by apply IH.
    + rewrite bind_ok. by apply IH.
Qed.

(** A bullet that is not a mapping, as a plain string in the sequence of
    bullets, does not render, wherever it stands among the bullets. The
    role or project raises: the [ValueError] of [str()] when a field of
    its heading, or the text or a tag of a bullet before this one, is an
    integer beyond the digit limit, and a type error otherwise. *)
Theorem bullet_not_mapping (entry : gmap pystr yaml) before b after
    include exclude mode :
  mode = lit "any" \/ mode = lit "all" ->
  entry !! lit "bullets" = Some (YList (before ++ b :: after)) ->
  forallb is_dict before = true ->
  is_dict b = false ->
  experience_entry (YDict entry) include exclude mode
  = Err (if heading_shows (YDict entry) role_keys
            && forallb well_formed_bullet before
         then BadType else ValueError digit_limit_msg)
  /\ project_entry (YDict entry) include exclude mode
     = Err (if heading_shows (YDict entry) project_keys
               && forallb well_formed_bullet before
            then BadType else ValueError digit_limit_msg).
Proof.
  intros Hmode Hentry Hbefore Hb.
  assert (iter_items (or_empty (field (YDict entry) (lit "bullets")))
          = Ok (before ++ b :: after)) as Hit.
  { unfold field. rewrite Hentry. unfold or_empty. simpl. by destruct before. }
  rewrite experience_entry_heading, project_entry_heading, Hit, !bind_ok.
  rewrite !keep_bullets_not_mapping by done.
  split; destruct (heading_shows _ _); cbn [andb]; try reflexivity;
    by destruct (forallb _ _).
Qed.

Lemma skills_loop_not_well_formed before s after lines :
  forallb well_formed_skill before = true ->
  well_formed_skill s = false ->
  skills_loop (before ++ s :: after) lines = Err BadType.
Proof.
  intros Hbefore Hs. revert lines.
  induction before as [|a before IH]; intros lines; simpl app.
  - rewrite skills_loop_cons. unfold well_formed_skill, field in Hs.
    destruct s as [| | | | | |m]; try reflexivity. unfold dict_get.
    rewrite bind_ok.
    destruct (default YNone (m !! lit "header")) as [| | |hd| | |];
      try reflexivity.
    change (md_escape (YStr hd)) with (Ok (strip (replace_crlf hd))).
    rewrite !bind_ok.
    destruct (default YNone (m !! lit "skill")); try reflexivity.
    discriminate Hs.
  - apply andb_prop in Hbefore as [Ha Hbefore].
    apply andb_prop in Ha as [Hh Hk].
    destruct a as [| | | | | |m]; try discriminate Hh.
    unfold field in Hh, Hk. rewrite skills_loop_cons. unfold dict_get.
    destruct (default YNone (m !! lit "header")); try discriminate Hh.
    destruct (default YNone (m !! lit "skill")); try discriminate Hk.
    unfold md_escape. rewrite !bind_ok, !md_text_str, !bind_ok. by apply IH.
Qed.

Lemma render_header_contacts (m : gmap pystr yaml) err :
  contacts_ok (YDict m) = true ->
  render_header (YDict m) = Err err -> err = BadType.
Proof.
  intros Hc. unfold render_header. intros E.
  apply bind_err_inv in E as [E|(n & _ & E)]; [discriminate E|].
  apply bind_err_inv in E as [E|(name & _ & E)]; [by eapply md_escape_error|].
  apply bind_err_inv in E as [E|(bits & _ & E)]; [|discriminate].
  destruct (contact_loop_total m _ [] Hc) as (bits & Hbits).
  rewrite Hbits in E. discriminate E.
Qed.

(** A skill without a header that is a string, or without a skill that is
    a string, does not render, where a role without company or title does:
    the skills are looked up without a default. [render_skills] raises a
    type error, and so does [build_md] unless [str()] raised before on a
    contact field that is an integer beyond the digit limit. *)
Theorem skill_not_well_formed (m : gmap pystr yaml) before s after
    include exclude mode :
  m !! lit "skills" = Some (YList (before ++ s :: after)) ->
  forallb well_formed_skill before = true ->
  well_formed_skill s = false ->
  render_skills (YDict m) = Err BadType
  /\ (exists err,
        build_md (YDict m) include exclude mode = Err err
        /\ (err = BadType \/ err = ValueError digit_limit_msg))
  /\ (contacts_ok (YDict m) = true ->
      build_md (YDict m) include exclude mode = Err BadType).
Proof.
  intros Hm Hbefore Hs.
  assert (render_skills (YDict m) = Err BadType) as Hk.
  { unfold render_skills, dict_get. rewrite bind_ok, Hm. simpl default.
    assert (or_empty (YList (before ++ s :: after))
            = YList (before ++ s :: after)) as ->
      by (unfold or_empty; simpl; by destruct before).
    assert (truthy (YList (before ++ s :: after)) = true) as ->
      by (simpl; by destruct before).
    simpl negb. cbv iota. unfold iter_items. rewrite bind_ok.
    by rewrite skills_loop_not_well_formed. }
  assert (exists err,
            build_md (YDict m) include exclude mode = Err err
            /\ (render_header (YDict m) = Err err \/ err = BadType))
    as (err & Hb & Herr).
  { unfold build_md.
    destruct (render_header (YDict m)) as [h|err] eqn:Hh;
      [|exists err; by split; [|left]].
    rewrite bind_ok.
    destruct (render_summary (YDict m)) as [sm|err] eqn:Hsm.
    - rewrite bind_ok, Hk. exists BadType. by split; [|right].
    - apply render_summary_error in Hsm as ->. exists BadType.
      by split; [|right]. }
  split; [done|]. split.
  - exists err. split; [done|].
    destruct Herr as [Hh| ->]; [by eapply render_header_error|by left].
  - intros Hc. rewrite Hb. f_equal.
    destruct Herr as [Hh|]; [by eapply render_header_contacts|done].
Qed.

(** Every rendering starts with the mark of the heading. *)
Theorem build_md_heading data include exclude mode out :
  build_md data include exclude mode = Ok out ->
  exists t, out = 35 :: t.
Proof.
  unfold build_md. intros E.
  bind_step E h Hh. bind_step E s Hs. bind_step E k Hk.
  bind_step E x Hx. bind_step E p Hp. bind_step E e He.
  apply Ok_inj in E as <-.
  destruct (render_header_head _ _ Hh) as (t & ->).
  unfold assemble.
  change (List.filter nonempty [35 :: t; s; k; x; p; e])
    with ((35 :: t) :: List.filter nonempty [s; k; x; p; e]).
  destruct (join_head nl 35 t (List.filter nonempty [s; k; x; p; e]))
    as (v & ->).
  destruct (strip_cons_clean 35 v eq_refl) as (u & ->). by eexists.
Qed.

End Malformed.

(** ** The command line and the files *)

Section CommandLine.
Context {py : Builtins}.

Lemma parse_args_ok c a :
  parse_args c = Ok a ->
  opt_in c = Some (arg_inp a) /\ opt_out c = Some (arg_out a)
  /\ arg_include a = default [] (opt_include c)
  /\ arg_exclude a = default [] (opt_exclude c)
  /\ (arg_mode a = lit "any" \/ arg_mode a = lit "all").
Proof.
  unfold parse_args. destruct (opt_mode c) as [m|].
  - destruct (bool_decide (m = lit "any")) eqn:Eany;
      destruct (bool_decide (m = lit "all")) eqn:Eall; simpl;
      try discriminate;
      destruct (opt_in c), (opt_out c); try discriminate;
      intros E; apply Ok_inj in E as <-; simpl;
      repeat (split; [reflexivity|]).
    + left. by apply bool_decide_eq_true in Eany.
    + left. by apply bool_decide_eq_true in Eany.
    + right. by apply bool_decide_eq_true in Eall.
  - destruct (opt_in c), (opt_out c); try discriminate.
    intros E. apply Ok_inj in E as <-. simpl.
    repeat (split; [reflexivity|]). by left.
Qed.

(** When [main] ends well, the command line named an input, an output
    and a known mode, the input was read and rendered under the tags of
    the command line, and the rendering is what the output file now
    holds; every other file is as before. *)
Theorem main_writes_output (c : cli) (fs fs' : files) :
  main c fs = (Ok tt, fs') ->
  exists inp out text data md,
    opt_in c = Some inp /\ opt_out c = Some out
    /\ fs !! inp = Some text /\ safe_load text = Some data
    /\ build_md data (tag_set (default [] (opt_include c)))
         (tag_set (default [] (opt_exclude c)))
         (default (lit "any") (opt_mode c)) = Ok md
    /\ fs' !! out = Some md
    /\ (forall path, path ≠ out -> fs' !! path = fs !! path).
Proof.
  unfold main. destruct (parse_args c) as [a|] eqn:Ha; [|discriminate].
  destruct (load_yaml fs (arg_inp a)) as [data|] eqn:Hl; [|discriminate].
  destruct (build_md _ _ _ _) as [md|] eqn:Hb; [|discriminate].
  unfold write_text. destruct (negb (writable (arg_out a))); [discriminate|].
  destruct (existsb is_surrogate md); [discriminate|].
  intros [= <-].
  assert (arg_mode a = default (lit "any") (opt_mode c)) as Hmode.
  { revert Ha. unfold parse_args. destruct (opt_mode c) as [m|]; simpl.
    - destruct (_ || _); [|discriminate].
      destruct (opt_in c), (opt_out c); try discriminate.
      intros E. by apply Ok_inj in E as <-.
    - destruct (opt_in c), (opt_out c); try discriminate.
      intros E. by apply Ok_inj in E as <-. }
  apply parse_args_ok in Ha as (Hin & Hout & Hinc & Hexc & _).
  unfold load_yaml in Hl.
  destruct (fs !! arg_inp a) as [text|] eqn:Hfs; [|discriminate].
  destruct (safe_load text) as [d|] eqn:Hsl; [|discriminate].
  apply Ok_inj in Hl as ->.
  exists (arg_inp a), (arg_out a), text, data, md.
  rewrite <- Hinc, <- Hexc, <- Hmode.
  repeat (split; [done|]). split.
  - apply lookup_insert_eq.
  - intros path Hne. by apply lookup_insert_ne.
Qed.




(** The tags of the command line: the pieces between commas that are not
    blank, trimmed and lowercased. There are none exactly when every piece
    is blank, as for the empty default. *)
Theorem tag_set_pieces (s : pystr) :
  (forall x, x ∈ tag_set s
     <-> exists t, t ∈ split_on 44 s /\ strip t ≠ [] /\ x = lower (strip t))
  /\ (tag_set s = ∅ <-> Forall (fun t => strip t = []) (split_on 44 s)).
Proof.
  assert (forall x, x ∈ tag_set s
     <-> exists t, t ∈ split_on 44 s /\ strip t ≠ [] /\ x = lower (strip t))
    as Hmem.
  { intros x. unfold tag_set.
    rewrite elem_of_list_to_set, list_elem_of_fmap. split.
    - intros (t & -> & Ht). apply list_elem_of_In, filter_In in Ht as [Ht Hne].
      exists t. split; [by apply list_elem_of_In|]. split; [|done].
      by destruct (strip t).
    - intros (t & Ht & Hne & ->). exists t. split; [done|].
      apply list_elem_of_In, filter_In. split; [by apply list_elem_of_In|].
      by destruct (strip t). }
  split; [exact Hmem|]. split.
  - intros E. apply Forall_forall. intros t Ht.
    destruct (strip t) as [|c u] eqn:Et; [done|]. exfalso.
    assert (lower (strip t) ∈ tag_set s) as Hin.
    { apply Hmem. exists t. split; [done|]. split; [by rewrite Et|done]. }
    rewrite E in Hin. by apply not_elem_of_empty in Hin.
  - intros Hall. apply set_eq. intros x. rewrite Hmem. split.
    + intros (t & Ht & Hne & _). rewrite Forall_forall in Hall.
      by destruct Hne; apply Hall.
    + intros Hx. by apply not_elem_of_empty in Hx.
Qed.

End CommandLine.

(** ** The output under a filter *)

Section FilteredOutput.
Context {py : Builtins}.
Implicit Types (include exclude : gset pystr) (mode : pystr).


End FilteredOutput.

(** ** Worked cases *)

Lemma java_not_empty : ({[ lit "java" ]} : gset pystr) ≠ ∅.
Proof.
  intros E. assert (lit "java" ∈ (∅ : gset pystr)) as Hin
    by (rewrite <- E; by apply elem_of_singleton).
  by apply not_elem_of_empty in Hin.
Qed.

(** A bullet tagged "java" and "aws" under include = {java}. *)
Lemma bullet_included_all_implies_any_witness :
  bullet_included {[lit "java"; lit "aws"]} {[lit "java"]} ∅ (lit "any")
  = Ok true.
Proof.
  apply bullet_included_all_implies_any. vm_compute. reflexivity.
Defined.

(** A bullet tagged "python" under include = {java}, with "aws" excluded
    on top. *)
Lemma bullet_included_more_excluded_witness :
  bullet_included {[lit "python"]} {[lit "java"]} (∅ ∪ {[lit "aws"]})
    (lit "any") = Ok false.
Proof.
  apply bullet_included_more_excluded. vm_compute. reflexivity.
Defined.

(** The bullet without tags, under no include filter and under {java}. *)
Lemma untagged_bullet_witness :
  bullet_included (tags_of (py:=ascii_builtins) (YDict untagged)) ∅ ∅
    (lit "any") = Ok (bool_decide ((∅ : gset pystr) = ∅))
  /\ bullet_included (tags_of (py:=ascii_builtins) (YDict untagged))
       {[lit "java"]} ∅ (lit "all")
     = Ok (bool_decide (({[lit "java"]} : gset pystr) = ∅)).
Proof.
  split; apply (untagged_bullet (py:=ascii_builtins));
    first [by left | by right | vm_compute; reflexivity].
Defined.

(** include = {java} inside {java, aws}. *)
Lemma bullet_included_include_monotone_witness :
  bullet_included {[lit "java"]} {[lit "java"; lit "aws"]} ∅ (lit "any")
  = Ok true
  /\ bullet_included {[lit "java"; lit "aws"; lit "sql"]} {[lit "java"]} ∅
       (lit "all") = Ok true.
Proof.
  assert (({[lit "java"]} : gset pystr) ⊆ {[lit "java"; lit "aws"]}) as Hsub.
  { intros x Hx. apply elem_of_union. by left. }
  split.
  - destruct (bullet_included_include_monotone {[lit "java"]} _ _ ∅ Hsub)
      as [Hany _].
    apply Hany; [exact java_not_empty|vm_compute; reflexivity].
  - destruct (bullet_included_include_monotone
                {[lit "java"; lit "aws"; lit "sql"]} _ _ ∅ Hsub) as [_ Hall].
    apply Hall. vm_compute. reflexivity.
Defined.

(** The tags [Java, AWS] and [AWS, Java, AWS]. *)
Lemma norm_tags_as_set_witness :
  norm_tags (py:=ascii_builtins) (YStr (lit "Java"))
  = norm_tags (py:=ascii_builtins) (YList [YStr (lit "Java")])
  /\ norm_tags (py:=ascii_builtins) (YList [YStr (lit "Java"); YStr (lit "AWS")])
     = norm_tags (py:=ascii_builtins)
         (YList [YStr (lit "AWS"); YStr (lit "Java"); YStr (lit "AWS")]).
Proof.
  apply (norm_tags_as_set (py:=ascii_builtins)).
  intros t. rewrite !elem_of_cons, !elem_of_nil. tauto.
Defined.

(** The bullets of the role tagged "python" and "aws", under
    include = {python}. *)
Lemma kept_bullets_are_survivors_witness :
  keep_bullets (py:=ascii_builtins) acme_bullets {[lit "python"]} ∅ (lit "any")
    [] = Ok [lit "Wrote scripts"]
  /\ sublist [lit "Wrote scripts"]
       (map (bullet_text (py:=ascii_builtins)) acme_bullets).
Proof.
  assert (keep_bullets (py:=ascii_builtins) acme_bullets {[lit "python"]} ∅
            (lit "any") [] = Ok [lit "Wrote scripts"]) as Hk
    by (vm_compute; reflexivity).
  split; [exact Hk|].
  by destruct (kept_bullets_are_survivors (py:=ascii_builtins) _ _ _ _ _ Hk)
    as (_ & Hsub & _).
Defined.

(** The sample resume under include = {java} and the mode "xml", and
    the resume whose phone is an integer of 4301 digits. *)
Lemma build_md_raises_witness :
  (build_md (py:=ascii_builtins) sample {[lit "java"]} ∅ (lit "xml")
   = Err (ValueError (lit "Unknown mode: xml"))
   /\ (ValueError (lit "Unknown mode: xml") = BadType
       \/ ValueError (lit "Unknown mode: xml") = ValueError digit_limit_msg
       \/ (ValueError (lit "Unknown mode: xml")
           = ValueError (lit "Unknown mode: " ++ lit "xml")
           /\ lit "xml" ≠ lit "any" /\ lit "xml" ≠ lit "all"
           /\ ({[lit "java"]} : gset pystr) ≠ ∅)))
  /\ build_md (py:=ascii_builtins) (YDict huge_phone) ∅ ∅ (lit "any")
     = Err (ValueError digit_limit_msg).
Proof.
  assert (build_md (py:=ascii_builtins) sample {[lit "java"]} ∅ (lit "xml")
          = Err (ValueError (lit "Unknown mode: xml"))) as Hb
    by (vm_compute; reflexivity).
  assert (build_md (py:=ascii_builtins) (YDict huge_phone) ∅ ∅ (lit "any")
          = Err (ValueError digit_limit_msg)) as Hh
    by (vm_compute; reflexivity).
  split; [|exact Hh]. split; [exact Hb|].
  exact (build_md_raises (py:=ascii_builtins) _ _ _ _ _ Hb).
Defined.

(** The document of an empty file. *)
Lemma build_md_not_mapping_witness :
  build_md (py:=ascii_builtins) YNone ∅ ∅ (lit "any") = Err BadType.
Proof. apply (build_md_not_mapping (py:=ascii_builtins)). reflexivity. Defined.

(** The resume whose name is null. *)
Lemma name_not_string_witness :
  render_header (py:=ascii_builtins) (YDict null_name) = Err BadType
  /\ build_md (py:=ascii_builtins) (YDict null_name) ∅ ∅ (lit "any")
     = Err BadType.
Proof.
  apply (name_not_string (py:=ascii_builtins) null_name YNone);
    [vm_compute; reflexivity|reflexivity].
Defined.

(** The role whose bullets are one string, and the same with a company
    that is an integer of 4301 digits. *)
Lemma bullets_not_sequence_witness :
  (experience_entry (py:=ascii_builtins) (YDict string_bullets) ∅ ∅ (lit "any")
   = Err BadType
   /\ project_entry (py:=ascii_builtins) (YDict string_bullets) ∅ ∅ (lit "any")
      = Err BadType)
  /\ experience_entry (py:=ascii_builtins) (YDict huge_company) ∅ ∅ (lit "any")
     = Err (ValueError digit_limit_msg).
Proof.
  assert (string_bullets !! lit "bullets"
          = Some (YStr (lit "Built a service"))) as H1
    by (vm_compute; reflexivity).
  assert (huge_company !! lit "bullets"
          = Some (YStr (lit "Built a service"))) as H2
    by (vm_compute; reflexivity).
  assert (forall l, YStr (lit "Built a service") ≠ YList l) as H3
    by discriminate.
  assert (heading_shows (py:=ascii_builtins) (YDict string_bullets) role_keys
          = true) as Hr by (vm_compute; reflexivity).
  assert (heading_shows (py:=ascii_builtins) (YDict string_bullets)
            project_keys = true) as Hp by (vm_compute; reflexivity).
  assert (heading_shows (py:=ascii_builtins) (YDict huge_company) role_keys
          = false) as Hh by (vm_compute; reflexivity).
  destruct (bullets_not_sequence (py:=ascii_builtins) string_bullets _ ∅ ∅
              (lit "any") H1 eq_refl H3) as [E1 E2].
  destruct (bullets_not_sequence (py:=ascii_builtins) huge_company _ ∅ ∅
              (lit "any") H2 eq_refl H3) as [E3 _].
  rewrite Hr in E1. rewrite Hp in E2. rewrite Hh in E3.
  split; [split; [exact E1|exact E2]|exact E3].
Defined.

(** The role with a plain string between two bullets, and the role with
    a plain string after a bullet tagged with an integer of 4301 digits. *)
Lemma bullet_not_mapping_witness :
  (experience_entry (py:=ascii_builtins) (YDict plain_bullet) ∅ ∅ (lit "any")
   = Err BadType
   /\ project_entry (py:=ascii_builtins) (YDict plain_bullet) ∅ ∅ (lit "any")
      = Err BadType)
  /\ experience_entry (py:=ascii_builtins) (YDict huge_bullet) ∅ ∅ (lit "any")
     = Err (ValueError digit_limit_msg).
Proof.
  assert (plain_bullet !! lit "bullets"
          = Some (YList ([first_bullet] ++ YStr (lit "Built") :: [last_bullet])))
    as H1 by (vm_compute; reflexivity).
  assert (huge_bullet !! lit "bullets"
          = Some (YList ([blank_huge] ++ YStr (lit "Built") :: [])))
    as H2 by (vm_compute; reflexivity).
  assert (heading_shows (py:=ascii_builtins) (YDict plain_bullet) role_keys
          && forallb (well_formed_bullet (py:=ascii_builtins)) [first_bullet]
          = true) as Hr by (vm_compute; reflexivity).
  assert (heading_shows (py:=ascii_builtins) (YDict plain_bullet) project_keys
          && forallb (well_formed_bullet (py:=ascii_builtins)) [first_bullet]
          = true) as Hp by (vm_compute; reflexivity).
  assert (heading_shows (py:=ascii_builtins) (YDict huge_bullet) role_keys
          && forallb (well_formed_bullet (py:=ascii_builtins)) [blank_huge]
          = false) as Hh by (vm_compute; reflexivity).
  destruct (bullet_not_mapping (py:=ascii_builtins) plain_bullet [first_bullet]
              (YStr (lit "Built")) [last_bullet] ∅ ∅ (lit "any")
              (or_introl eq_refl) H1 eq_refl eq_refl) as [E1 E2].
  destruct (bullet_not_mapping (py:=ascii_builtins) huge_bullet [blank_huge]
              (YStr (lit "Built")) [] ∅ ∅ (lit "any")
              (or_introl eq_refl) H2 eq_refl eq_refl) as [E3 _].
  rewrite Hr in E1. rewrite Hp in E2. rewrite Hh in E3.
  split; [split; [exact E1|exact E2]|exact E3].
Defined.

(** The resume with a skill that has no header. *)
Lemma skill_not_well_formed_witness :
  render_skills (py:=ascii_builtins) (YDict headless_skill) = Err BadType
  /\ build_md (py:=ascii_builtins) (YDict headless_skill) ∅ ∅ (lit "any")
     = Err BadType.
Proof.
  assert (exists before s,
            headless_skill !! lit "skills" = Some (YList (before ++ s :: []))
            /\ forallb well_formed_skill before = true
            /\ well_formed_skill s = false) as (before & s & H1 & H2 & H3).
  { eexists [_], _. split; [vm_compute; reflexivity|].
    split; vm_compute; reflexivity. }
  assert (contacts_ok (py:=ascii_builtins) (YDict headless_skill) = true)
    as Hc by (vm_compute; reflexivity).
  destruct (skill_not_well_formed (py:=ascii_builtins) headless_skill before s
              [] ∅ ∅ (lit "any") H1 H2 H3) as (Hk & _ & Hb).
  split; [exact Hk|exact (Hb Hc)].
Defined.

(** The sample resume starts with "#". *)
Lemma build_md_heading_witness : exists t, sample_out = 35 :: t.
Proof.
  exact (build_md_heading (py:=ascii_builtins) sample ∅ ∅ (lit "any")
           sample_out sample_renders).
Defined.

(** The sample resume is of the expected shape, and renders in mode
    [all] under include = {java, aws}. *)
Lemma build_md_total_witness :
  exists out,
    build_md (py:=ascii_builtins) sample {[lit "java"; lit "aws"]} ∅ (lit "all")
    = Ok out.
Proof.
  apply (build_md_total (py:=ascii_builtins)); [by right|].
  vm_compute. reflexivity.
Defined.


(** The command line [--in r.yaml --out r.md --include "Java, ,aws"
    --exclude " , " --mode all] on the sample resume. *)
Lemma main_writes_output_witness :
  main (py:=sample_builtins) cli_java disk = (Ok tt, disk_after)
  /\ (exists md,
        build_md (py:=sample_builtins) sample
          (tag_set (py:=sample_builtins) (lit "Java, ,aws"))
          (tag_set (py:=sample_builtins) (lit " , ")) (lit "all") = Ok md
        /\ disk_after !! lit "r.md" = Some md)
  /\ disk_after !! lit "r.yaml" = disk !! lit "r.yaml".
Proof.
  assert (main (py:=sample_builtins) cli_java disk = (Ok tt, disk_after))
    as Hm by (vm_compute; reflexivity).
  split; [exact Hm|].
  destruct (main_writes_output (py:=sample_builtins) _ _ _ Hm)
    as (inp & out & text & data & md & Hin & Hout & Htext & Hdata & Hb & Hmd
        & Hother).
  apply Some_inj in Hout as <-. apply Some_inj in Hdata as <-.
  split; [exists md; split; [exact Hb|exact Hmd]|].
  apply Hother. discriminate.
Defined.


(** ** Normalised text, and keys that are not read *)

Section Stable.
Context {py : Builtins}.

Lemma replace_crlf_no_cr (s : pystr) : CR ∉ s -> replace_crlf s = s.
Proof.
  induction s as [|c rest IH]; [done|]. intros Hc.
  apply not_elem_of_cons in Hc as [Hc Hrest].
  destruct rest as [|d rest']; [done|].
  change (replace_crlf (c :: d :: rest'))
    with (if (c =? CR) && (d =? LF) then LF :: replace_crlf rest'
          else c :: replace_crlf (d :: rest')).
  destruct (N.eqb_spec c CR) as [->|_]; [done|]. simpl andb. cbv iota.
  by rewrite IH.
Qed.

Lemma strip_fixed (t : pystr) : t = [] \/ clean t -> strip t = t.
Proof.
  intros [->|[(c & u & -> & Hc) Hlast]]; [done|].
  unfold strip.
  assert (rstrip (c :: u) = c :: u) as ->; [|by apply lstrip_clean].
  unfold rstrip.
  destruct (exists_last (l:=c :: u)) as (v & d & Hv); [done|].
  rewrite Hv, rev_unit.
  rewrite lstrip_clean by (by eapply Hlast).
  by rewrite <- rev_unit, rev_involutive.
Qed.

(** [md_escape] gives text that is empty or has no white space at its
    ends; and on text without carriage returns a second [md_escape], as
    [render_skills] applies to the header and the skill, changes nothing. *)
Theorem md_escape_stable (s t : pystr) :
  md_escape (YStr s) = Ok t ->
  (t = [] \/ clean t) /\ (CR ∉ s -> md_escape (YStr t) = Ok t).
Proof.
  intros E. apply Ok_inj in E as <-.
  assert (forall u : pystr, strip u = [] \/ clean (strip u)) as Hclean.
  { intros u. destruct (strip u) eqn:E; [by left|]. right. rewrite <- E.
    apply strip_clean. by rewrite E. }
  split; [apply Hclean|]. intros Hcr.
  rewrite (replace_crlf_no_cr s Hcr).
  unfold md_escape. f_equal.
  rewrite replace_crlf_no_cr; [by apply strip_fixed|].
  intros Hin. apply Hcr.
  destruct (strip_split s) as (w1 & w2 & Hs & _). rewrite Hs.
  apply elem_of_app. right. apply elem_of_app. by left.
Qed.

(** A key that the renderers do not read changes nothing: the rendering
    is the same with it and without it. *)
Theorem unknown_keys_ignored (m : gmap pystr yaml) (k : pystr) (v : yaml)
    (include exclude : gset pystr) (mode : pystr) :
  k ∉ known_keys ->
  build_md (YDict (<[k := v]> m)) include exclude mode
  = build_md (YDict m) include exclude mode.
Proof.
  intros Hk.
  assert (forall k', k' ∈ known_keys -> <[k := v]> m !! k' = m !! k') as Hget.
  { intros k' Hk'. apply lookup_insert_ne. by intros ->. }
  assert (forall keys bits, Forall (fun k' => k' ∈ known_keys) keys ->
            contact_loop (YDict (<[k := v]> m)) keys bits
            = contact_loop (YDict m) keys bits) as Hcontact.
  { induction keys as [|k' keys IH]; intros bits Hall; [done|].
    apply Forall_cons in Hall as [Hk' Hall].
    rewrite !contact_loop_step. unfold dict_get.
    rewrite (Hget _ Hk'). apply bind_ext. intros x.
    destruct (truthy x); [|by apply IH].
    apply bind_ext. intros t. by apply IH. }
  unfold build_md.
  assert (render_header (YDict (<[k := v]> m)) = render_header (YDict m)) as ->.
  { unfold render_header, dict_get_or.
    rewrite Hget by (unfold known_keys; set_solver).
    rewrite Hcontact; [done|].
    repeat constructor; unfold known_keys; set_solver. }
  assert (render_summary (YDict (<[k := v]> m)) = render_summary (YDict m))
    as ->.
  { unfold render_summary, dict_get.
    by rewrite Hget by (unfold known_keys; set_solver). }
  assert (render_skills (YDict (<[k := v]> m)) = render_skills (YDict m)) as ->.
  { unfold render_skills, dict_get.
    by rewrite Hget by (unfold known_keys; set_solver). }
  assert (render_experience (YDict (<[k := v]> m)) include exclude mode
          = render_experience (YDict m) include exclude mode) as ->.
  { unfold render_experience, dict_get.
    by rewrite Hget by (unfold known_keys; set_solver). }
  assert (render_projects (YDict (<[k := v]> m)) include exclude mode
          = render_projects (YDict m) include exclude mode) as ->.
  { unfold render_projects, dict_get.
    by rewrite Hget by (unfold known_keys; set_solver). }
  assert (render_education (YDict (<[k := v]> m)) = render_education (YDict m))
    as ->.
  { unfold render_education, dict_get.
    by rewrite Hget by (unfold known_keys; set_solver). }
  reflexivity.
Qed.

End Stable.

(** The text " a b ", escaped once and twice. *)
Lemma md_escape_stable_witness :
  md_escape (YStr (lit " a b ")) = Ok (lit "a b")
  /\ (lit "a b" = [] \/ clean (lit "a b"))
  /\ md_escape (YStr (lit "a b")) = Ok (lit "a b").
Proof.
  assert (md_escape (YStr (lit " a b ")) = Ok (lit "a b")) as E
    by (vm_compute; reflexivity).
  destruct (md_escape_stable (lit " a b ") (lit "a b") E) as [Hclean Hagain].
  split; [exact E|]. split; [exact Hclean|]. apply Hagain.
  intros Hin. vm_compute in Hin.
  repeat (apply elem_of_cons in Hin as [Hin|Hin]; [discriminate Hin|]).
  by apply elem_of_nil in Hin.
Defined.

(** The resume with a name only, and a key "hobbies" on top. *)
Lemma unknown_keys_ignored_witness :
  build_md (py:=ascii_builtins)
    (YDict (<[lit "hobbies" := YList [YStr (lit "chess")]]> name_only))
    ∅ ∅ (lit "any")
  = build_md (py:=ascii_builtins) (YDict name_only) ∅ ∅ (lit "any").
Proof.
  apply (unknown_keys_ignored (py:=ascii_builtins)).
  intros Hin. unfold known_keys in Hin.
  repeat (apply elem_of_cons in Hin as [Hin|Hin]; [discriminate Hin|]).
  by apply elem_of_nil in Hin.
Defined.
